(** * NetLedger Python SDK: the request/response pipeline

    A shallow embedding of [netledger_sdk] (http_client.py, exceptions.py,
    models.py and the operation groups under methods/) together with the
    properties its specification states about them.

    Python values that travel over the wire are embedded as [value]; an
    operation that talks to the server is a computation in the monad [M],
    which threads the state of the network and the log of the requests
    sent, and which may end by raising one of the exceptions of [exn]. *)

From Stdlib Require Import ZArith Ascii Floats.PrimFloat DecimalString DecimalNat Sorted.
From stdpp Require Import base numbers option list strings gmap.

Set Warnings "-register-all".
Set Default Proof Using "Type".

Local Open Scope Z_scope.

(** ** Python values *)

(** What [json.loads] produces and what the SDK hands to [json.dumps]:
    [None], booleans, integers, floats, strings, lists and string-keyed
    dictionaries.  Strings are sequences of code points below 256. *)
Inductive value : Type :=
  | VNone
  | VBool (b : bool)
  | VInt (z : Z)
  | VFloat (f : float)
  | VStr (s : string)
  | VList (l : list value)
  | VDict (d : gmap string value).

(** The exceptions the SDK raises or lets through. *)
Inductive exn : Type :=
  | NetLedgerConnectionError (message : string) (cause : option string)
  | NetLedgerApiError (status_code : Z) (message : value) (details : value)
  | NetLedgerValidationError (message : string) (parameter_name : option string)
  | ValueError (message : string)
  | AttributeError
  | TypeError
  | KeyError
  | IndexError
  | OverflowError
  | OtherException (e : string).

Inductive Result (A : Type) : Type :=
  | Return (a : A)
  | Raise (e : exn).
Arguments Return {A} a.
Arguments Raise {A} e.

#[global] Instance Result_ret : MRet Result := @Return.
#[global] Instance Result_bind : MBind Result := fun A B f r =>
  match r with
  | Return a => f a
  | Raise e => Raise e
  end.

Module Py.

(** [bool(v)]: the truth value Python gives to [v] in [if v] and [not v]. *)
Definition truthy (v : value) : bool :=
  match v with
  | VNone => false
  | VBool b => b
  | VInt z => negb (z =? 0)
  | VFloat f => negb (PrimFloat.eqb f 0%float)
  | VStr s => negb (String.eqb s "")
  | VList l => negb (bool_decide (length l = 0%nat))
  | VDict d => negb (bool_decide (size d = 0%nat))
  end.

(** [d.get(key, default)] on a dictionary. *)
Definition dict_get (d : gmap string value) (key : string) (default : value) : value :=
  match d !! key with
  | Some v => v
  | None => default
  end.

(** [v.get(key, default)] on an arbitrary value: only a dictionary has
    the attribute. *)
Definition get (v : value) (key : string) (default : value) : Result value :=
  match v with
  | VDict d => Return (dict_get d key default)
  | _ => Raise AttributeError
  end.

(** [v[0]]. *)
Definition getitem0 (v : value) : Result value :=
  match v with
  | VList (x :: _) => Return x
  | VList [] => Raise IndexError
  | VStr (String c _) => Return (VStr (String c ""))
  | VStr "" => Raise IndexError
  | VDict _ => Raise KeyError
  | VNone | VBool _ | VInt _ | VFloat _ => Raise TypeError
  end.

(** The items [for o in v] runs over. A dictionary yields its keys (here
    in the order of the map, where Python follows insertion order). *)
Definition iter (v : value) : Result (list value) :=
  match v with
  | VList l => Return l
  | VStr s => Return ((fun c => VStr (String c "")) <$> String.list_ascii_of_string s)
  | VDict d => Return (VStr <$> (fst <$> map_to_list d))
  | VNone | VBool _ | VInt _ | VFloat _ => Raise TypeError
  end.

(** [[f(o) for o in l]]: the first exception raised ends the comprehension. *)
Fixpoint comprehension {A : Type} (f : value -> Result A) (l : list value) : Result (list A) :=
  match l with
  | [] => Return []
  | o :: l' =>
      a ← f o;
      r ← comprehension f l';
      Return (a :: r)
  end.

(** [str.isspace] on one character. *)
Definition isspace (c : ascii) : bool :=
  let n := nat_of_ascii c in
  ((9 <=? n) && (n <=? 13) || (28 <=? n) && (n <=? 32) || (n =? 133) || (n =? 160))%nat.

Fixpoint lstrip (s : string) : string :=
  match s with
  | String c s' => if isspace c then lstrip s' else s
  | EmptyString => EmptyString
  end.

Fixpoint rstrip (s : string) : string :=
  match s with
  | String c s' =>
      match rstrip s' with
      | EmptyString => if isspace c then EmptyString else String c EmptyString
      | kept => String c kept
      end
  | EmptyString => EmptyString
  end.

(** [s.strip()]. *)
Definition strip (s : string) : string := rstrip (lstrip s).

(** Every character of [s] is whitespace (so is the empty string). *)
Fixpoint all_space (s : string) : bool :=
  match s with
  | String c s' => isspace c && all_space s'
  | EmptyString => true
  end.

(** [s.rstrip(x)] for a one-character [x]. *)
Fixpoint rstrip_char (x : ascii) (s : string) : string :=
  match s with
  | String c s' =>
      match rstrip_char x s' with
      | EmptyString => if Ascii.eqb c x then EmptyString else String c EmptyString
      | kept => String c kept
      end
  | EmptyString => EmptyString
  end.

(** A number the caller passes where the annotation says [float]: an
    [int] or a [float]. *)
Inductive number : Type :=
  | NInt (z : Z)
  | NFloat (f : float).

Definition of_number (n : number) : value :=
  match n with
  | NInt z => VInt z
  | NFloat f => VFloat f
  end.

(** [n <= 0]. *)
Definition le0 (n : number) : bool :=
  match n with
  | NInt z => z <=? 0
  | NFloat f => PrimFloat.leb f 0%float
  end.

(** An [Optional[str]] as a value. *)
Definition of_optional_str (o : option string) : value :=
  match o with
  | Some s => VStr s
  | None => VNone
  end.

(** [if o:] for an [Optional[str]]: set and not the empty string. *)
Definition nonempty (o : option string) : bool :=
  match o with
  | Some s => negb (String.eqb s "")
  | None => false
  end.

(** The two conversions of the interpreter behind [float(v)]: an [int]
    to the nearest float ([None]: too large, [OverflowError]) and the
    parser of float literals ([None]: [ValueError]). *)
Record builtins : Type := Builtins {
  float_of_int : Z -> option float;
  float_of_str : string -> option float
}.

(** [float(v)]. *)
Definition to_float (bi : builtins) (v : value) : Result float :=
  match v with
  | VFloat f => Return f
  | VInt z =>
      match float_of_int bi z with
      | Some f => Return f
      | None => Raise OverflowError
      end
  | VBool b => Return (if b then 1%float else 0%float)
  | VStr s =>
      match float_of_str bi s with
      | Some f => Return f
      | None => Raise (ValueError "could not convert string to float")
      end
  | VNone | VList _ | VDict _ => Raise TypeError
  end.

(** [a or b]. *)
Definition or_ (a b : value) : value := if truthy a then a else b.

(** [v.items()]: the members of a dictionary (here in the order of the
    map, where Python follows insertion order); only a dictionary has the
    attribute. *)
Definition items (v : value) : Result (list (string * value)) :=
  match v with
  | VDict d => Return (map_to_list d)
  | _ => Raise AttributeError
  end.

(** [str(z)] for an [int], as an f-string writes it. *)
Definition str_of_int (z : Z) : string := NilZero.string_of_int (Z.to_int z).

(** The characters [urllib.parse.quote] never escapes: letters, digits
    and [_.-~]. *)
Definition unreserved (c : ascii) : bool :=
  let n := nat_of_ascii c in
  ((65 <=? n) && (n <=? 90) || (97 <=? n) && (n <=? 122) || (48 <=? n) && (n <=? 57)
   || (n =? 95) || (n =? 46) || (n =? 45) || (n =? 126))%nat.

Definition hex_digit (n : nat) : ascii :=
  if (n <? 10)%nat then ascii_of_nat (48 + n) else ascii_of_nat (55 + n).

(** ['%{:02X}'.format(b)] for a byte [b]. *)
Definition percent (b : nat) : string :=
  String "%" (String (hex_digit (b / 16)) (String (hex_digit (b mod 16)) EmptyString)).

(** One character of [quote(s, safe='')]: itself when unreserved, and
    otherwise the bytes of its UTF-8 encoding, one for a code point below
    128 and two for a code point from 128 to 255, each as [%XX]. *)
Definition quote_char (c : ascii) : string :=
  let n := nat_of_ascii c in
  if unreserved c then String c EmptyString
  else if (n <? 128)%nat then percent n
  else percent (192 + n / 64) +:+ percent (128 + n mod 64).

(** [urllib.parse.quote(s, safe='')]. *)
Fixpoint quote (s : string) : string :=
  match s with
  | String c s' => quote_char c +:+ quote s'
  | EmptyString => EmptyString
  end.

(** [not s or not s.strip()] for a [str]. *)
Definition blank (s : string) : bool :=
  String.eqb s "" || String.eqb (strip s) "".

End Py.

(** ** The network *)

(** What [requests] is asked to send: the verb, the full URL, the value
    passed as [json=] (if any) and the timeout. *)
Record request : Type := Request {
  method : string;
  url : string;
  json_body : option value;
  timeout : float
}.

(** A [requests.Response] as the SDK reads it.  [headers] is keyed by the
    lower-cased header name; [json] is what [response.json()] returns, and
    [None] when it raises [ValueError]. *)
Module Response.
Record t : Type := Make {
  status_code : Z;
  reason : option string;
  headers : gmap string string;
  text : string;
  json : option value
}.
End Response.

(** How a call of [session.request] or [session.head] ends: with a
    response, with [requests.exceptions.Timeout], with another
    [requests.exceptions.RequestException], or with an [Exception] that is
    none of these ([e] names the exception raised). *)
Inductive outcome : Type :=
  | Responded (response : Response.t)
  | RaisedTimeout
  | RaisedRequestException (e : string)
  | RaisedException (e : string).

(** The state an operation runs in: the server behind the session and the
    requests sent so far, oldest first. *)
Record net (world : Type) : Type := Net {
  server : world;
  sent : list request
}.
Arguments Net {world} server sent.
Arguments server {world} n.
Arguments sent {world} n.

Definition M (world : Type) (A : Type) : Type := net world -> Result A * net world.

#[global] Instance M_ret (world : Type) : MRet (M world) :=
  fun A a n => (Return a, n).
#[global] Instance M_bind (world : Type) : MBind (M world) :=
  fun A B f m n =>
    match m n with
    | (Return a, n') => f a n'
    | (Raise e, n') => (Raise e, n')
    end.

Definition raise {world A : Type} (e : exn) : M world A :=
  fun n => (Raise e, n).

(** [try: m  except ... as e: h e]; a handler that does not catch [e]
    re-raises it. *)
Definition try_except {world A : Type} (m : M world A) (h : exn -> M world A) : M world A :=
  fun n =>
    match m n with
    | (Return a, n') => (Return a, n')
    | (Raise e, n') => h e n'
    end.

Definition lift {world A : Type} (r : Result A) : M world A :=
  fun n => (r, n).

(** ** http_client.py *)

Module ApiResponse.
Record t : Type := Make {
  data : value;
  status_code : Z;
  request_guid : option string
}.
End ApiResponse.

Module HttpClient.

Record t : Type := Make {
  base_url : string;
  api_key : string;
  timeout : float
}.

Definition __init__ (base_url api_key : string) (timeout_seconds : float) : t :=
  {| base_url := Py.rstrip_char "/" base_url;
     api_key := api_key;
     timeout := timeout_seconds |}.

Section Methods.
Context {world : Type}.
Variable send : request -> world -> outcome * world.
Variable self : t.

(** One call on [self.session]: the request is logged and the server
    moves on. *)
Definition session_request (req : request) : M world outcome :=
  fun n =>
    let '(o, w) := send req (server n) in
    (Return o, Net w (sent n ++ [req])).

Definition is_2xx (status : Z) : bool := (200 <=? status) && (status <? 300).

Definition head (path : string) : M world bool :=
  let url := base_url self +:+ path in
  o ← session_request (Request "HEAD" url None (timeout self));
  match o with
  | Responded response => mret (is_2xx (Response.status_code response))
  | RaisedTimeout => raise (NetLedgerConnectionError "Request timed out" None)
  | RaisedRequestException e =>
      raise (NetLedgerConnectionError "Failed to connect to the server" (Some e))
  | RaisedException e => raise (OtherException e)
  end.

Definition _request (method path : string) (body : option value) : M world ApiResponse.t :=
  let url := base_url self +:+ path in
  o ← session_request (Request method url body (timeout self));
  match o with
  | Responded response =>
      let status := Response.status_code response in
      if negb (is_2xx status) then
        let error_message :=
          match Response.reason response with
          | Some r => if String.eqb r "" then "Unknown error" else r
          | None => "Unknown error"
          end in
        match Response.json response with
        | Some error_data =>
            error_message' ← lift (Py.get error_data "message" (VStr error_message));
            error_details ← lift (Py.get error_data "description" VNone);
            raise (NetLedgerApiError status error_message' error_details)
        | None => raise (NetLedgerApiError status (VStr error_message) VNone)
        end
      else
        let request_guid := Response.headers response !! "x-request-guid" in
        if String.eqb (Response.text response) "" || String.eqb (Py.strip (Response.text response)) "" then
          mret (ApiResponse.Make VNone status request_guid)
        else
          match Response.json response with
          | Some data => mret (ApiResponse.Make data status request_guid)
          | None => raise (NetLedgerApiError status (VStr "Failed to parse response") VNone)
          end
  | RaisedTimeout => raise (NetLedgerConnectionError "Request timed out" None)
  | RaisedRequestException e =>
      raise (NetLedgerConnectionError "Failed to connect to the server" (Some e))
  | RaisedException e => raise (OtherException e)
  end.

Definition get (path : string) : M world ApiResponse.t := _request "GET" path None.
Definition put (path : string) (body : option value) : M world ApiResponse.t :=
  _request "PUT" path body.
Definition post (path : string) (body : option value) : M world ApiResponse.t :=
  _request "POST" path body.
Definition delete (path : string) : M world unit :=
  _ ← _request "DELETE" path None; mret tt.

End Methods.
End HttpClient.

(** ** models.py *)

Inductive EntryType : Type := CREDIT | DEBIT | BALANCE.

Module EntryType.
(** [EntryType(v)]: the member whose value equals [v], [ValueError] when
    there is none.  [True == 1] and [1.0 == 1] in Python. *)
Definition call (v : value) : Result EntryType :=
  let invalid := Raise (ValueError "value is not a valid EntryType") in
  match v with
  | VInt 0 => Return CREDIT
  | VInt 1 => Return DEBIT
  | VInt 2 => Return BALANCE
  | VBool false => Return CREDIT
  | VBool true => Return DEBIT
  | VFloat f =>
      if PrimFloat.eqb f 0%float then Return CREDIT
      else if PrimFloat.eqb f 1%float then Return DEBIT
      else if PrimFloat.eqb f 2%float then Return BALANCE
      else invalid
  | _ => invalid
  end.

Definition value (t : EntryType) : Z :=
  match t with
  | CREDIT => 0
  | DEBIT => 1
  | BALANCE => 2
  end.
End EntryType.

Inductive EnumerationOrder : Type :=
  | CREATED_ASCENDING
  | CREATED_DESCENDING
  | AMOUNT_ASCENDING
  | AMOUNT_DESCENDING.

Module EnumerationOrder.
Definition value (o : EnumerationOrder) : Z :=
  match o with
  | CREATED_ASCENDING => 0
  | CREATED_DESCENDING => 1
  | AMOUNT_ASCENDING => 2
  | AMOUNT_DESCENDING => 3
  end.
End EnumerationOrder.

Module Account.
Record t : Type := Make {
  guid : value;
  name : value;
  notes : value;
  created_utc : value
}.

Definition from_dict (data : value) : Result t :=
  guid ← Py.get data "GUID" (VStr "");
  name ← Py.get data "Name" (VStr "");
  notes ← Py.get data "Notes" VNone;
  created_utc ← Py.get data "CreatedUtc" VNone;
  Return (Make guid name notes created_utc).
End Account.

Module Entry.
Record t : Type := Make {
  guid : value;
  account_guid : value;
  type : EntryType;
  amount : float;
  description : value;
  replaces : value;
  is_committed : value;
  committed_by_guid : value;
  committed_utc : value;
  created_utc : value
}.

Definition type_map : gmap string value :=
  <["Balance" := VInt 2]> (<["Debit" := VInt 1]> (<["Credit" := VInt 0]> ∅)).

(** The discriminator, from the raw ["Type"] of the wire object. *)
Definition decode_type (entry_type_raw : value) : Result EntryType :=
  match entry_type_raw with
  | VStr s => EntryType.call (Py.dict_get type_map s (VInt 0))
  | _ => EntryType.call entry_type_raw
  end.

Definition from_dict (bi : Py.builtins) (data : value) : Result t :=
  entry_type_raw ← Py.get data "Type" (VInt 0);
  entry_type ← decode_type entry_type_raw;
  guid ← Py.get data "GUID" (VStr "");
  account_guid ← Py.get data "AccountGUID" (VStr "");
  amount_raw ← Py.get data "Amount" (VInt 0);
  amount ← Py.to_float bi amount_raw;
  description ← Py.get data "Description" VNone;
  replaces ← Py.get data "Replaces" VNone;
  is_committed ← Py.get data "IsCommitted" (VBool false);
  committed_by_guid ← Py.get data "CommittedByGUID" VNone;
  committed_utc ← Py.get data "CommittedUtc" VNone;
  created_utc ← Py.get data "CreatedUtc" VNone;
  Return (Make guid account_guid entry_type amount description replaces
            is_committed committed_by_guid committed_utc created_utc).
End Entry.

Module EntryInput.
Record t : Type := Make {
  amount : Py.number;
  description : option string
}.

Definition to_dict (self : t) : gmap string value :=
  let result : gmap string value := <["amount" := Py.of_number (amount self)]> ∅ in
  if Py.nonempty (description self)
  then <["description" := Py.of_optional_str (description self)]> result
  else result.
End EntryInput.

Module PendingTransactionSummary.
Record t : Type := Make {
  count : value;
  total : float;
  entries : option (list Entry.t)
}.

Definition from_dict (bi : Py.builtins) (data : value) : Result t :=
  raw ← Py.get data "Entries" VNone;
  entries ←
    (if Py.truthy raw then
       items ← Py.iter raw;
       l ← Py.comprehension (Entry.from_dict bi) items;
       Return (Some l)
     else Return None);
  count ← Py.get data "Count" (VInt 0);
  total_raw ← Py.get data "Total" (VInt 0);
  total ← Py.to_float bi total_raw;
  Return (Make count total entries).
End PendingTransactionSummary.

Module Balance.
Record t : Type := Make {
  account_guid : value;
  committed_balance : float;
  pending_balance : float;
  pending_credits : option PendingTransactionSummary.t;
  pending_debits : option PendingTransactionSummary.t
}.

Definition summary (bi : Py.builtins) (raw : value) : Result (option PendingTransactionSummary.t) :=
  if Py.truthy raw then
    s ← PendingTransactionSummary.from_dict bi raw;
    Return (Some s)
  else Return None.

Definition from_dict (bi : Py.builtins) (data : value) : Result t :=
  credits_raw ← Py.get data "PendingCredits" VNone;
  pending_credits ← summary bi credits_raw;
  debits_raw ← Py.get data "PendingDebits" VNone;
  pending_debits ← summary bi debits_raw;
  account_guid ← Py.get data "AccountGUID" (VStr "");
  committed_raw ← Py.get data "CommittedBalance" (VInt 0);
  committed_balance ← Py.to_float bi committed_raw;
  pending_raw ← Py.get data "PendingBalance" (VInt 0);
  pending_balance ← Py.to_float bi pending_raw;
  Return (Make account_guid committed_balance pending_balance pending_credits pending_debits).
End Balance.

Module CommitResult.
Record t : Type := Make {
  entries_committed : value;
  balance_entry : option Entry.t;
  balance : option Balance.t
}.

Definition from_dict (bi : Py.builtins) (data : value) : Result t :=
  entry_raw ← Py.get data "BalanceEntry" VNone;
  balance_entry ←
    (if Py.truthy entry_raw then
       e ← Entry.from_dict bi entry_raw;
       Return (Some e)
     else Return None);
  balance_raw ← Py.get data "Balance" VNone;
  balance ←
    (if Py.truthy balance_raw then
       b ← Balance.from_dict bi balance_raw;
       Return (Some b)
     else Return None);
  entries_committed ← Py.get data "EntriesCommitted" (VInt 0);
  Return (Make entries_committed balance_entry balance).
End CommitResult.

Module ApiKeyInfo.
Record t : Type := Make {
  guid : value;
  name : value;
  api_key : value;
  active : value;
  is_admin : value;
  created_utc : value
}.

Definition from_dict (data : value) : Result t :=
  guid ← Py.get data "GUID" (VStr "");
  name ← Py.get data "Name" (VStr "");
  api_key ← Py.get data "Key" VNone;
  active ← Py.get data "Active" (VBool true);
  is_admin ← Py.get data "IsAdmin" (VBool false);
  created_utc ← Py.get data "CreatedUtc" VNone;
  Return (Make guid name api_key active is_admin created_utc).
End ApiKeyInfo.

Module ServiceInfo.
Record t : Type := Make {
  name : value;
  version : value;
  start_time_utc : value;
  uptime_seconds : value;
  uptime_formatted : value
}.

(** [data.get(upper) or data.get(lower, default)]. *)
Definition either (data : value) (upper lower : string) (default : value) : Result value :=
  a ← Py.get data upper VNone;
  if Py.truthy a then Return a else Py.get data lower default.

Definition from_dict (data : value) : Result t :=
  name ← either data "Name" "name" (VStr "");
  version ← either data "Version" "version" (VStr "");
  start_time_utc ← either data "StartTimeUtc" "startTimeUtc" VNone;
  uptime_seconds ← either data "UptimeSeconds" "uptimeSeconds" (VInt 0);
  uptime_formatted ← either data "UptimeFormatted" "uptimeFormatted" (VStr "");
  Return (Make name version start_time_utc uptime_seconds uptime_formatted).
End ServiceInfo.

Module EnumerationResult.
(** [objects] holds decoded objects when a factory was given and the raw
    ["Objects"] otherwise. *)
Inductive objs (A : Type) : Type :=
  | Decoded (l : list A)
  | Raw (v : value).
Arguments Decoded {A} l.
Arguments Raw {A} v.

Record t (A : Type) : Type := Make {
  total_records : value;
  records_remaining : value;
  end_of_results : value;
  continuation_token : value;
  objects : option (objs A)
}.
Arguments Make {A}.
Arguments total_records {A}.
Arguments records_remaining {A}.
Arguments end_of_results {A}.
Arguments continuation_token {A}.
Arguments objects {A}.

(** [EnumerationResult()]: the defaults of the dataclass. *)
Definition default {A : Type} : t A :=
  Make (VInt 0) (VInt 0) (VBool true) VNone None.

Definition from_dict {A : Type} (data : value) (object_factory : option (value -> Result A))
  : Result (t A) :=
  raw ← Py.get data "Objects" VNone;
  objects ←
    (if Py.truthy raw then
       match object_factory with
       | Some factory =>
           items ← Py.iter raw;
           l ← Py.comprehension factory items;
           Return (Some (Decoded l))
       | None => Return (Some (Raw raw))
       end
     else Return None);
  total_records ← Py.get data "TotalRecords" (VInt 0);
  records_remaining ← Py.get data "RecordsRemaining" (VInt 0);
  end_of_results ← Py.get data "EndOfResults" (VBool true);
  continuation_token ← Py.get data "ContinuationToken" VNone;
  Return (Make total_records records_remaining end_of_results continuation_token objects).
End EnumerationResult.

Module EntryEnumerationQuery.
Record t : Type := Make {
  max_results : Z;
  continuation_token : option string;
  created_after_utc : option string;
  created_before_utc : option string;
  amount_min : option Py.number;
  amount_max : option Py.number;
  ordering : EnumerationOrder
}.

(** [EntryEnumerationQuery()]. *)
Definition default : t :=
  Make 100 None None None None None CREATED_DESCENDING.

(** [result[key] = v] when [cond] holds. *)
Definition set_if (cond : bool) (key : string) (v : value) (result : gmap string value)
  : gmap string value :=
  if cond then <[key := v]> result else result.

Definition set_str (key : string) (o : option string) (result : gmap string value)
  : gmap string value :=
  set_if (Py.nonempty o) key (Py.of_optional_str o) result.

Definition set_num (key : string) (o : option Py.number) (result : gmap string value)
  : gmap string value :=
  match o with
  | Some n => <[key := Py.of_number n]> result
  | None => result
  end.

Definition to_dict (self : t) : gmap string value :=
  let result : gmap string value :=
    <["Ordering" := VInt (EnumerationOrder.value (ordering self))]>
      (<["MaxResults" := VInt (max_results self)]> ∅) in
  let result := set_str "ContinuationToken" (continuation_token self) result in
  let result := set_str "CreatedAfterUtc" (created_after_utc self) result in
  let result := set_str "CreatedBeforeUtc" (created_before_utc self) result in
  let result := set_num "AmountMinimum" (amount_min self) result in
  let result := set_num "AmountMaximum" (amount_max self) result in
  result.
End EntryEnumerationQuery.

Module AccountEnumerationQuery.
Record t : Type := Make {
  max_results : Z;
  skip : Z;
  search_term : option string
}.

(** [AccountEnumerationQuery()]. *)
Definition default : t := Make 100 0 None.
End AccountEnumerationQuery.

Module ApiKeyEnumerationQuery.
Record t : Type := Make {
  max_results : Z;
  skip : Z
}.

(** [ApiKeyEnumerationQuery()]. *)
Definition default : t := Make 100 0.
End ApiKeyEnumerationQuery.

(** ** methods/ *)

Module EntryMethods.
Section Methods.
Context {world : Type}.
Variable send : request -> world -> outcome * world.
Variable bi : Py.builtins.
Variable _client : HttpClient.t.

(** The body of [add_credit] and of [add_debit], which differ in the
    last segment of the path only. *)
Definition add_one (segment : string) (account_guid : string) (amount : Py.number)
    (description : option string) : M world value :=
  if Py.le0 amount then
    raise (NetLedgerValidationError "Amount must be greater than zero" (Some "amount"))
  else
    let body : gmap string value := <["Amount" := Py.of_number amount]> ∅ in
    let body :=
      if Py.nonempty description then <["Notes" := Py.of_optional_str description]> body
      else body in
    response ← HttpClient.put send _client
                 ("/v1/accounts/" +:+ account_guid +:+ segment) (Some (VDict body));
    if negb (Py.truthy (ApiResponse.data response)) then
      raise (ValueError "No data returned from server")
    else
      entry_guids ← lift (Py.get (ApiResponse.data response) "EntryGuids" (VList []));
      if negb (Py.truthy entry_guids) then
        raise (ValueError "No entry GUID returned from server")
      else lift (Py.getitem0 entry_guids).

Definition add_credit := add_one "/credits".
Definition add_debit := add_one "/debits".

(** [for entry in entries: if entry.amount <= 0: raise ...]. *)
Fixpoint check_amounts (entries : list EntryInput.t) : Result unit :=
  match entries with
  | [] => Return tt
  | entry :: rest =>
      if Py.le0 (EntryInput.amount entry) then
        Raise (NetLedgerValidationError "All amounts must be greater than zero" (Some "entries"))
      else check_amounts rest
  end.

Definition entry_payload (e : EntryInput.t) : value :=
  VDict (<["Notes" := Py.of_optional_str (EntryInput.description e)]>
           (<["Amount" := Py.of_number (EntryInput.amount e)]> ∅)).

(** The body of [add_credits] and of [add_debits]. *)
Definition add_many (segment : string) (account_guid : string) (entries : list EntryInput.t)
    : M world value :=
  if bool_decide (length entries = 0%nat) then
    raise (NetLedgerValidationError "Entries list cannot be empty" (Some "entries"))
  else
    _ ← lift (check_amounts entries);
    let body : gmap string value := <["Entries" := VList (entry_payload <$> entries)]> ∅ in
    response ← HttpClient.put send _client
                 ("/v1/accounts/" +:+ account_guid +:+ segment) (Some (VDict body));
    if negb (Py.truthy (ApiResponse.data response)) then mret (VList [])
    else lift (Py.get (ApiResponse.data response) "EntryGuids" (VList [])).

Definition add_credits := add_many "/credits".
Definition add_debits := add_many "/debits".

Definition get_all (account_guid : string) : M world (list Entry.t) :=
  response ← HttpClient.get send _client ("/v1/accounts/" +:+ account_guid +:+ "/entries");
  if negb (Py.truthy (ApiResponse.data response)) then mret []
  else
    objects ← lift (Py.get (ApiResponse.data response) "Objects" (VList []));
    items ← lift (Py.iter objects);
    lift (Py.comprehension (Entry.from_dict bi) items).

Definition enumerate (account_guid : string) (query : option EntryEnumerationQuery.t)
    : M world (EnumerationResult.t Entry.t) :=
  let query := default EntryEnumerationQuery.default query in
  response ← HttpClient.post send _client
               ("/v1/accounts/" +:+ account_guid +:+ "/entries/enumerate")
               (Some (VDict (EntryEnumerationQuery.to_dict query)));
  if negb (Py.truthy (ApiResponse.data response)) then mret EnumerationResult.default
  else lift (EnumerationResult.from_dict (ApiResponse.data response)
               (Some (Entry.from_dict bi))).

Definition cancel (account_guid entry_guid : string) : M world unit :=
  HttpClient.delete send _client
    ("/v1/accounts/" +:+ account_guid +:+ "/entries/" +:+ entry_guid).

(** The body of [get_pending], [get_pending_credits] and
    [get_pending_debits], which differ in the path only. *)
Definition pending (suffix : string) (account_guid : string) : M world (list Entry.t) :=
  response ← HttpClient.get send _client ("/v1/accounts/" +:+ account_guid +:+ suffix);
  if negb (Py.truthy (ApiResponse.data response)) then mret []
  else
    items ← lift (Py.iter (ApiResponse.data response));
    lift (Py.comprehension (Entry.from_dict bi) items).

Definition get_pending := pending "/entries/pending".
Definition get_pending_credits := pending "/entries/pending/credits".
Definition get_pending_debits := pending "/entries/pending/debits".

End Methods.
End EntryMethods.

Module BalanceMethods.
Section Methods.
Context {world : Type}.
Variable send : request -> world -> outcome * world.
Variable bi : Py.builtins.
Variable _client : HttpClient.t.

Definition get (account_guid : string) : M world Balance.t :=
  response ← HttpClient.get send _client ("/v1/accounts/" +:+ account_guid +:+ "/balance");
  if negb (Py.truthy (ApiResponse.data response)) then
    raise (ValueError "No data returned from server")
  else lift (Balance.from_dict bi (ApiResponse.data response)).

(** [if entry_guids:] for an [Optional[List[str]]]. *)
Definition commit_body (entry_guids : option (list string)) : option value :=
  match entry_guids with
  | Some (g :: l) => Some (VDict (<["EntryGuids" := VList (VStr <$> g :: l)]> ∅))
  | Some [] | None => None
  end.

Definition commit (account_guid : string) (entry_guids : option (list string))
    : M world Balance.t :=
  let body := commit_body entry_guids in
  response ← HttpClient.post send _client
               ("/v1/accounts/" +:+ account_guid +:+ "/commit") body;
  if negb (Py.truthy (ApiResponse.data response)) then
    raise (ValueError "No data returned from server")
  else lift (Balance.from_dict bi (ApiResponse.data response)).

Definition verify (account_guid : string) : M world bool :=
  try_except
    (response ← HttpClient.get send _client ("/v1/accounts/" +:+ account_guid +:+ "/verify");
     mret (ApiResponse.status_code response =? 200))
    (fun e =>
       match e with
       | NetLedgerApiError status_code _ _ =>
           if status_code =? 409 then mret false else raise e
       | _ => raise e
       end).

(** [as_of_utc.strftime('%Y-%m-%dT%H:%M:%SZ')], the formatter of the
    [datetime] library. *)
Context {datetime : Type}.
Variable strftime : datetime -> string.

Definition get_as_of (account_guid : string) (as_of_utc : datetime) : M world float :=
  let timestamp := strftime as_of_utc in
  response ← HttpClient.get send _client
               ("/v1/accounts/" +:+ account_guid +:+ "/balance/asof?asOf=" +:+ timestamp);
  if negb (Py.truthy (ApiResponse.data response)) then
    raise (ValueError "No data returned from server")
  else
    balance ← lift (Py.get (ApiResponse.data response) "balance" (VInt 0));
    lift (Py.to_float bi balance).

Definition get_all : M world (list Balance.t) :=
  response ← HttpClient.get send _client "/v1/balances";
  if negb (Py.truthy (ApiResponse.data response)) then mret []
  else
    members ← lift (Py.items (ApiResponse.data response));
    lift (Py.comprehension (Balance.from_dict bi) (snd <$> members)).

End Methods.
End BalanceMethods.

Module ServiceMethods.
Section Methods.
Context {world : Type}.
Variable send : request -> world -> outcome * world.
Variable _client : HttpClient.t.

(** [except Exception] catches every exception of [exn]. *)
Definition health_check : M world bool :=
  try_except (HttpClient.head send _client "/") (fun _ => mret false).

Definition get_info : M world ServiceInfo.t :=
  response ← HttpClient.get send _client "/";
  if negb (Py.truthy (ApiResponse.data response)) then
    raise (ValueError "No data returned from server")
  else lift (ServiceInfo.from_dict (ApiResponse.data response)).

End Methods.
End ServiceMethods.

Module AccountMethods.
Section Methods.
Context {world : Type}.
Variable send : request -> world -> outcome * world.
Variable _client : HttpClient.t.

Definition exists_ (account_guid : string) : M world bool :=
  HttpClient.head send _client ("/v1/accounts/" +:+ account_guid).

Definition delete (account_guid : string) : M world unit :=
  HttpClient.delete send _client ("/v1/accounts/" +:+ account_guid).

Definition create (name : string) (notes : option string) : M world Account.t :=
  if Py.blank name then
    raise (NetLedgerValidationError "Account name cannot be empty" (Some "name"))
  else
    let body : gmap string value := <["name" := VStr name]> ∅ in
    let body :=
      if Py.nonempty notes then <["notes" := Py.of_optional_str notes]> body else body in
    response ← HttpClient.put send _client "/v1/accounts" (Some (VDict body));
    if negb (Py.truthy (ApiResponse.data response)) then
      raise (ValueError "No data returned from server")
    else lift (Account.from_dict (ApiResponse.data response)).

Definition get (account_guid : string) : M world Account.t :=
  response ← HttpClient.get send _client ("/v1/accounts/" +:+ account_guid);
  if negb (Py.truthy (ApiResponse.data response)) then
    raise (ValueError "No data returned from server")
  else lift (Account.from_dict (ApiResponse.data response)).

Definition get_by_name (name : string) : M world Account.t :=
  if Py.blank name then
    raise (NetLedgerValidationError "Account name cannot be empty" (Some "name"))
  else
    let encoded_name := Py.quote name in
    response ← HttpClient.get send _client ("/v1/accounts/byname/" +:+ encoded_name);
    if negb (Py.truthy (ApiResponse.data response)) then
      raise (ValueError "No data returned from server")
    else lift (Account.from_dict (ApiResponse.data response)).

(** [f'/v1/accounts?{"&".join(params)}']. *)
Definition enumerate_path (query : AccountEnumerationQuery.t) : string :=
  "/v1/accounts?maxResults=" +:+ Py.str_of_int (AccountEnumerationQuery.max_results query)
  +:+ "&skip=" +:+ Py.str_of_int (AccountEnumerationQuery.skip query)
  +:+ (match AccountEnumerationQuery.search_term query with
       | Some term =>
           if String.eqb term "" then "" else "&searchTerm=" +:+ Py.quote term
       | None => ""
       end).

Definition enumerate (query : option AccountEnumerationQuery.t)
    : M world (EnumerationResult.t Account.t) :=
  let query := default AccountEnumerationQuery.default query in
  response ← HttpClient.get send _client (enumerate_path query);
  if negb (Py.truthy (ApiResponse.data response)) then mret EnumerationResult.default
  else lift (EnumerationResult.from_dict (ApiResponse.data response)
               (Some Account.from_dict)).

End Methods.
End AccountMethods.

Module ApiKeyMethods.
Section Methods.
Context {world : Type}.
Variable send : request -> world -> outcome * world.
Variable _client : HttpClient.t.

Definition create (name : string) (is_admin : bool) : M world ApiKeyInfo.t :=
  if Py.blank name then
    raise (NetLedgerValidationError "API key name cannot be empty" (Some "name"))
  else
    let body : gmap string value :=
      <["isAdmin" := VBool is_admin]> (<["name" := VStr name]> ∅) in
    response ← HttpClient.put send _client "/v1/apikeys" (Some (VDict body));
    if negb (Py.truthy (ApiResponse.data response)) then
      raise (ValueError "No data returned from server")
    else lift (ApiKeyInfo.from_dict (ApiResponse.data response)).

Definition enumerate (query : option ApiKeyEnumerationQuery.t)
    : M world (EnumerationResult.t ApiKeyInfo.t) :=
  let query := default ApiKeyEnumerationQuery.default query in
  let path := "/v1/apikeys?maxResults="
              +:+ Py.str_of_int (ApiKeyEnumerationQuery.max_results query)
              +:+ "&skip=" +:+ Py.str_of_int (ApiKeyEnumerationQuery.skip query) in
  response ← HttpClient.get send _client path;
  if negb (Py.truthy (ApiResponse.data response)) then mret EnumerationResult.default
  else lift (EnumerationResult.from_dict (ApiResponse.data response)
               (Some ApiKeyInfo.from_dict)).

Definition revoke (api_key_guid : string) : M world unit :=
  HttpClient.delete send _client ("/v1/apikeys/" +:+ api_key_guid).

End Methods.
End ApiKeyMethods.

(** ** client.py *)

Module NetLedgerClient.
Record t : Type := Make {
  base_url : string;
  _http_client : HttpClient.t
}.

Definition __init__ (base_url api_key : string) (timeout_seconds : float) : Result t :=
  if Py.blank base_url then Raise (ValueError "Base URL cannot be empty")
  else if Py.blank api_key then Raise (ValueError "API key cannot be empty")
  else
    let base_url := Py.rstrip_char "/" base_url in
    Return (Make base_url (HttpClient.__init__ base_url api_key timeout_seconds)).
End NetLedgerClient.

(** ** The enumeration endpoint of the server *)

Module Server.
Section Server.

(** The entries of the account that match the filters of a query, in the
    ordering of the query: the ledger engine is outside the SDK, and any
    way of filtering and ordering will do. *)
Variable select : gmap string value -> list value.

(** The JSON serializer of the server. *)
Variable dumps : value -> string.

(** Modelled from the spec: the continuation token, an opaque cursor.  The
    server code is not in the SDK; the cursor is taken to be the count of
    records delivered so far, written in decimal. *)
Definition token_of_offset (k : nat) : string :=
  NilEmpty.string_of_uint (Nat.to_uint k).

(** Modelled from the spec: the cursor read back from a token that is
    echoed verbatim. *)
Definition offset_of_token (token : string) : option nat :=
  Nat.of_uint <$> NilEmpty.uint_of_string token.

(** Modelled from the spec: the query of an enumeration without its paging
    members; a token asks for the next page under the same query. *)
Definition filter_of (payload : gmap string value) : gmap string value :=
  delete "ContinuationToken" (delete "MaxResults" payload).

(** Modelled from the spec: where the page starts, the first record
    without a token. *)
Definition cursor (payload : gmap string value) : option nat :=
  match payload !! "ContinuationToken" with
  | None => Some 0%nat
  | Some (VStr token) => offset_of_token token
  | Some _ => None
  end.

(** Modelled from the spec: the size of a page, [max_results > 0]. *)
Definition page_size (payload : gmap string value) : option nat :=
  match payload !! "MaxResults" with
  | Some (VInt m) => if 0 <? m then Some (Z.to_nat m) else None
  | _ => None
  end.

(** Modelled from the spec: one page of an enumeration, the server side of
    [EnumerationResult].  [total_records] counts the matching records,
    [records_remaining] is [total_records] less the records delivered up
    to and including this page, [end_of_results] holds when nothing
    remains, and the token, present while something remains, is the
    cursor of the next page. *)
Definition enumerate_page (records : list value) (max_results offset : nat)
  : gmap string value :=
  let page := take max_results (drop offset records) in
  let delivered := (offset + length page)%nat in
  let remaining := (length records - delivered)%nat in
  <["Objects" := VList page]>
    (<["ContinuationToken" :=
         if (remaining =? 0)%nat then VNone else VStr (token_of_offset delivered)]>
       (<["EndOfResults" := VBool (remaining =? 0)%nat]>
          (<["RecordsRemaining" := VInt (Z.of_nat remaining)]>
             (<["TotalRecords" := VInt (Z.of_nat (length records))]> ∅)))).

(** Modelled from the spec: the answer to a payload that is no query, an
    error body without content. *)
Definition bad_request : outcome :=
  Responded (Response.Make 400 (Some "Bad Request") ∅ "" None).

(** Modelled from the spec: the answer to
    [POST /v1/accounts/{guid}/entries/enumerate]. *)
Definition enumerate (req : request) : outcome :=
  match json_body req with
  | Some (VDict payload) =>
      match page_size payload, cursor payload with
      | Some max_results, Some offset =>
          let body :=
            VDict (enumerate_page (select (filter_of payload)) max_results offset) in
          Responded (Response.Make 200 (Some "OK") ∅ (dumps body) (Some body))
      | _, _ => bad_request
      end
  | _ => bad_request
  end.

(** Modelled from the spec: the server as the session sees it.  It keeps
    no state between the pages: the cursor is in the token. *)
Definition send (req : request) (w : unit) : outcome * unit := (enumerate req, w).

End Server.
End Server.

(** ** Vocabulary of the statements *)

(** The message of an API error when the body of the response carries
    none: the reason phrase, and ["Unknown error"] when there is none. *)
Definition reason_or_unknown (response : Response.t) : string :=
  match Response.reason response with
  | Some r => if String.eqb r "" then "Unknown error" else r
  | None => "Unknown error"
  end.

(** [n <= 0] as a proposition. *)
Definition nonpositive (n : Py.number) : Prop :=
  match n with
  | Py.NInt z => z <= 0
  | Py.NFloat f => PrimFloat.leb f 0%float = true
  end.

(** The body of a response as [_request] reads it: [None] for an empty or
    all-whitespace body, the decoded JSON otherwise; no reading at all
    when the body is neither blank nor JSON. *)
Definition body_of (response : Response.t) : option value :=
  if Py.all_space (Response.text response) then Some VNone else Response.json response.

(** The guids a decoded 2xx body of the credit and debit endpoints carries:
    none for a body that is missing or falsy or an object without
    [EntryGuids], the members of [EntryGuids] when that is a list.  Other
    bodies are not of the shape [{EntryGuids: [...]}]. *)
Definition entry_guids_of (data : value) : option (list value) :=
  if negb (Py.truthy data) then Some []
  else match data with
       | VDict d =>
           match d !! "EntryGuids" with
           | None => Some []
           | Some (VList l) => Some l
           | Some _ => None
           end
       | _ => None
       end.

(** A string field of a query as [to_dict] sends it: not at all when it
    is unset or the empty string. *)
Definition sent_text (o : option string) : option string :=
  match o with
  | Some EmptyString => None
  | _ => o
  end.

(** No string field of the query is set to the empty string. *)
Definition no_empty_text (q : EntryEnumerationQuery.t) : Prop :=
  EntryEnumerationQuery.continuation_token q <> Some ""
  /\ EntryEnumerationQuery.created_after_utc q <> Some ""
  /\ EntryEnumerationQuery.created_before_utc q <> Some "".

(** The token of a page as the next query carries it: a string that is
    not empty. *)
Definition token_to_echo (token : value) : option string :=
  match token with
  | VStr s => if String.eqb s "" then None else Some s
  | _ => None
  end.

Definition with_token (q : EntryEnumerationQuery.t) (token : option string)
  : EntryEnumerationQuery.t :=
  EntryEnumerationQuery.Make
    (EntryEnumerationQuery.max_results q) token
    (EntryEnumerationQuery.created_after_utc q) (EntryEnumerationQuery.created_before_utc q)
    (EntryEnumerationQuery.amount_min q) (EntryEnumerationQuery.amount_max q)
    (EntryEnumerationQuery.ordering q).

(** The pages of one enumeration: enumerate, and while the page is not the
    end of the results and carries a token, enumerate again with the same
    query and that token.  [None] when [fuel] calls were not enough. *)
Fixpoint follow_pages {world : Type} (send : request -> world -> outcome * world)
    (bi : Py.builtins) (client : HttpClient.t) (fuel : nat) (account_guid : string)
    (query : EntryEnumerationQuery.t)
  : M world (option (list (EnumerationResult.t Entry.t))) :=
  match fuel with
  | O => mret None
  | S fuel' =>
      result ← EntryMethods.enumerate send bi client account_guid (Some query);
      if Py.truthy (EnumerationResult.end_of_results result) then mret (Some [result])
      else
        match token_to_echo (EnumerationResult.continuation_token result) with
        | None => mret (Some [result])
        | Some token =>
            rest ← follow_pages send bi client fuel' account_guid (with_token query (Some token));
            mret (cons result <$> rest)
        end
  end.

(** The entries of a page. *)
Definition page_entries (page : EnumerationResult.t Entry.t) : list Entry.t :=
  match EnumerationResult.objects page with
  | Some (EnumerationResult.Decoded l) => l
  | _ => []
  end.

(** The token of a query and the offset it stands for: no token for the
    first page, the token of [k] after [k > 0] records. *)
Definition points_at (token : option string) (k : nat) : Prop :=
  (token = None /\ k = 0%nat) \/ (token = Some (Server.token_of_offset k) /\ (0 < k)%nat).

(** The page a client is to see when the server holds [entries] for its
    query and the page starts after [k] of them, [m] to a page. *)
Definition expected_page (entries : list Entry.t) (m k : nat) : EnumerationResult.t Entry.t :=
  let page := take m (drop k entries) in
  let delivered := (k + length page)%nat in
  let remaining := (length entries - delivered)%nat in
  EnumerationResult.Make
    (VInt (Z.of_nat (length entries)))
    (VInt (Z.of_nat remaining))
    (VBool (remaining =? 0)%nat)
    (if (remaining =? 0)%nat then VNone else VStr (Server.token_of_offset delivered))
    (match page with [] => None | _ => Some (EnumerationResult.Decoded page) end).

(** A server without state that gives every request the same answer. *)
Definition always (o : outcome) : request -> unit -> outcome * unit :=
  fun _ w => (o, w).

Definition localhost : HttpClient.t :=
  HttpClient.__init__ "http://localhost:8080/" "netledger-key" 30%float.

(** A network on which nothing has been sent yet. *)
Definition fresh {world : Type} (w : world) : net world := Net w [].

(** Stand-ins for the examples, which convert no int and no string to a
    float and never look into the text of a JSON body: conversions that
    refuse, and a serializer that writes a placeholder. *)
Definition refusing : Py.builtins := Py.Builtins (fun _ => None) (fun _ => None).

Definition placeholder (v : value) : string := "{...}".

(** The scenario of the specification: fifteen credits, enumerated by
    ascending amount, five to a page. *)
Definition scenario_amounts : list float :=
  [5; 10; 15; 20; 25; 30; 35; 45; 50; 55; 60; 75; 80; 90; 100]%float.

Definition scenario_record (amount : float) : value :=
  VDict (<["Type" := VStr "Credit"]>
           (<["Amount" := VFloat amount]> (<["AccountGUID" := VStr "acct"]> ∅))).

Definition scenario_select (filter : gmap string value) : list value :=
  scenario_record <$> scenario_amounts.

Definition scenario_entry (amount : float) : Entry.t :=
  Entry.Make (VStr "") (VStr "acct") CREDIT amount VNone VNone (VBool false) VNone VNone VNone.

Definition scenario_query : EntryEnumerationQuery.t :=
  EntryEnumerationQuery.Make 5 None None None None None AMOUNT_ASCENDING.

(** [k] slashes. *)
Fixpoint slashes (k : nat) : string :=
  match k with
  | O => EmptyString
  | S k' => String "/" (slashes k')
  end.

(** The last character of [s] is [x]. *)
Fixpoint ends_with (x : ascii) (s : string) : bool :=
  match s with
  | EmptyString => false
  | String c EmptyString => Ascii.eqb c x
  | String _ s' => ends_with x s'
  end.

(** The objects of a page, none when [objects] is [None]. *)
Definition decoded_objects {A : Type} (page : EnumerationResult.t A) : list A :=
  match EnumerationResult.objects page with
  | Some (EnumerationResult.Decoded l) => l
  | _ => []
  end.



(** The value of a hexadecimal digit in upper case. *)
Definition hex_value (c : ascii) : nat :=
  let n := nat_of_ascii c in
  if (n <? 58)%nat then (n - 48)%nat else (n - 55)%nat.

(** Reads back the first character of a quoted string and returns it with
    the rest: the inverse of [Py.quote_char] at the head of a string, by
    which [Py.quote] is seen to lose nothing. *)
Definition unquote_first (s : string) : option (ascii * string) :=
  match s with
  | String "%" (String h1 (String l1 rest)) =>
      let b1 := (16 * hex_value h1 + hex_value l1)%nat in
      if (b1 <? 128)%nat then Some (ascii_of_nat b1, rest)
      else
        match rest with
        | String "%" (String h2 (String l2 rest')) =>
            let b2 := (16 * hex_value h2 + hex_value l2)%nat in
            Some (ascii_of_nat (64 * (b1 - 192) + (b2 - 128)), rest')
        | _ => None
        end
  | String c rest => Some (c, rest)
  | EmptyString => None
  end.

(** * Properties *)

(** ** Python strings *)

Lemma all_space_lstrip (s : string) : Py.all_space (Py.lstrip s) = Py.all_space s.
Proof.
  induction s as [|c s IH]; simpl; [reflexivity|].
  destruct (Py.isspace c) eqn:Hc; simpl; [exact IH | by rewrite Hc].
Qed.

Lemma rstrip_empty (s : string) : Py.rstrip s = "" <-> Py.all_space s = true.
Proof.
  induction s as [|c s IH]; simpl; [done|].
  destruct (Py.rstrip s) eqn:Hr, (Py.isspace c) eqn:Hc; simpl; split; try done.
  - intros _. by apply IH.
  - intros Hs. apply IH in Hs. discriminate.
Qed.

Lemma strip_empty (s : string) : Py.strip s = "" <-> Py.all_space s = true.
Proof. unfold Py.strip. by rewrite rstrip_empty, all_space_lstrip. Qed.

Lemma eqb_empty (s : string) : String.eqb s "" = true <-> s = "".
Proof. apply String.eqb_eq. Qed.

(** The test [not text or text.strip() == ''] of [_request]. *)
Lemma blank_test (s : string) :
  String.eqb s "" || String.eqb (Py.strip s) "" = Py.all_space s.
Proof.
  apply eq_true_iff_eq. rewrite orb_true_iff, !eqb_empty, strip_empty.
  split; [intros [->|]; done | by right].
Qed.

Example strip_example : Py.strip (" " +:+ "a b" +:+ String "010" "") = "a b".
Proof. reflexivity. Qed.

Example rstrip_char_example :
  HttpClient.base_url (HttpClient.__init__ "http://localhost:8080//" "key" 30%float)
  = "http://localhost:8080".
Proof. reflexivity. Qed.

(** ** Transport *)

Lemma is_2xx_spec (status : Z) :
  HttpClient.is_2xx status = true <-> 200 <= status < 300.
Proof. unfold HttpClient.is_2xx. rewrite andb_true_iff. lia. Qed.

Lemma is_2xx_false (status : Z) :
  HttpClient.is_2xx status = false <-> ¬ (200 <= status < 300).
Proof. rewrite <- is_2xx_spec. by destruct (HttpClient.is_2xx status). Qed.

Section Transport.
Context {world : Type}.
Variable send : request -> world -> outcome * world.
Variable self : HttpClient.t.

(** What [_request] does once the session has answered with [o]. *)
Lemma _request_unfold (method path : string) (body : option value) (n : net world) :
  let req := Request method (HttpClient.base_url self +:+ path) body (HttpClient.timeout self) in
  HttpClient._request send self method path body n =
  (let '(o, w) := send req (server n) in
   let n' := Net w (sent n ++ [req]) in
   match o with
   | Responded response =>
       let status := Response.status_code response in
       if negb (HttpClient.is_2xx status) then
         match Response.json response with
         | Some (VDict d) =>
             (Raise (NetLedgerApiError status
                       (Py.dict_get d "message" (VStr (reason_or_unknown response)))
                       (Py.dict_get d "description" VNone)), n')
         | Some _ => (Raise AttributeError, n')
         | None => (Raise (NetLedgerApiError status (VStr (reason_or_unknown response)) VNone), n')
         end
       else if Py.all_space (Response.text response) then
         (Return (ApiResponse.Make VNone status (Response.headers response !! "x-request-guid")), n')
       else
         match Response.json response with
         | Some data =>
             (Return (ApiResponse.Make data status (Response.headers response !! "x-request-guid")), n')
         | None =>
             (Raise (NetLedgerApiError status (VStr "Failed to parse response") VNone), n')
         end
   | RaisedTimeout => (Raise (NetLedgerConnectionError "Request timed out" None), n')
   | RaisedRequestException e =>
       (Raise (NetLedgerConnectionError "Failed to connect to the server" (Some e)), n')
   | RaisedException e => (Raise (OtherException e), n')
   end).
Proof.
  intros req. unfold HttpClient._request, HttpClient.session_request, mbind, M_bind.
  fold req. destruct (send req (server n)) as [o w]. destruct o as [response| |e|e]; try reflexivity.
  cbv zeta. destruct (negb (HttpClient.is_2xx (Response.status_code response))).
  - unfold reason_or_unknown.
    destruct (Response.json response) as [[]|]; reflexivity.
  - rewrite blank_test. destruct (Py.all_space (Response.text response)); [reflexivity|].
    destruct (Response.json response); reflexivity.
Qed.

(** C1, as the code has it.  Whenever the server answers a request with
    [response]: a 2xx status with an empty or all-whitespace body gives
    an envelope whose data is [None]; a 2xx status with any other body
    that is not valid JSON raises an API error with that status and the
    message "Failed to parse response"; a status outside [200,300) whose
    body is not JSON, or is a JSON object, raises an API error with that
    status, whose message is the object's [message] member when it has
    one and otherwise the reason phrase, or "Unknown error" when the
    reason phrase is empty or missing, and whose details are the
    object's [description] member ([None] without one). *)
Theorem request_maps_response (method path : string) (body : option value)
    (n : net world) (response : Response.t) :
  (send (Request method (HttpClient.base_url self +:+ path) body (HttpClient.timeout self))
        (server n)).1 = Responded response ->
  let status := Response.status_code response in
  let result := (HttpClient._request send self method path body n).1 in
  (200 <= status < 300 -> Py.all_space (Response.text response) = true ->
     result = Return (ApiResponse.Make VNone status
                        (Response.headers response !! "x-request-guid")))
  /\ (200 <= status < 300 -> Py.all_space (Response.text response) = false ->
      Response.json response = None ->
      result = Raise (NetLedgerApiError status (VStr "Failed to parse response") VNone))
  /\ (¬ (200 <= status < 300) -> Response.json response = None ->
      result = Raise (NetLedgerApiError status (VStr (reason_or_unknown response)) VNone))
  /\ (¬ (200 <= status < 300) -> forall d, Response.json response = Some (VDict d) ->
      result = Raise (NetLedgerApiError status
                        (default (VStr (reason_or_unknown response)) (d !! "message"))
                        (default VNone (d !! "description")))).
Proof.
  intros Hsend status result. subst result. rewrite _request_unfold. cbv zeta.
  destruct (send _ (server n)) as [o w]. simpl in Hsend. subst o. fold status.
  repeat split.
  - intros H2 Hblank. apply is_2xx_spec in H2. by rewrite H2, Hblank.
  - intros H2 Hblank Hjson. apply is_2xx_spec in H2. by rewrite H2, Hblank, Hjson.
  - intros H2 Hjson. apply is_2xx_false in H2. by rewrite H2, Hjson.
  - intros H2 d Hjson. apply is_2xx_false in H2. rewrite H2, Hjson. simpl.
    unfold Py.dict_get. by destruct (d !! "message"), (d !! "description").
Qed.

(** C8.  A HEAD request never raises because of the status: it returns
    [True] exactly when the status is in [200,300).  A timeout raises a
    connection error with the message "Request timed out"; any other
    failure of the connection raises a connection error that wraps its
    cause.  [exists] is that HEAD request on the account's path. *)
Theorem head_never_raises_on_status (path : string) (n : net world) :
  let o := (send (Request "HEAD" (HttpClient.base_url self +:+ path) None
                    (HttpClient.timeout self)) (server n)).1 in
  let result := (HttpClient.head send self path n).1 in
  (forall response, o = Responded response ->
     exists b : bool, result = Return b
       /\ (b = true <-> 200 <= Response.status_code response < 300))
  /\ (o = RaisedTimeout ->
      result = Raise (NetLedgerConnectionError "Request timed out" None))
  /\ (forall e, o = RaisedRequestException e ->
      result = Raise (NetLedgerConnectionError "Failed to connect to the server" (Some e)))
  /\ (forall account_guid,
      AccountMethods.exists_ send self account_guid
      = HttpClient.head send self ("/v1/accounts/" +:+ account_guid)).
Proof.
  cbv zeta. unfold HttpClient.head, HttpClient.session_request, mbind, M_bind.
  destruct (send _ (server n)) as [o w]. simpl. split; [|split; [|split]].
  - intros response ->. eexists. split; [reflexivity|]. apply is_2xx_spec.
  - by intros ->.
  - by intros e ->.
  - reflexivity.
Qed.

(** C9.  [health_check] never raises: whatever the session does, it
    returns a boolean, and that boolean is [True] exactly when the HEAD
    request on the root path was answered with a 2xx status. *)
Theorem health_check_total (n : net world) :
  exists b : bool,
    (ServiceMethods.health_check send self n).1 = Return b
    /\ (b = true <->
        exists response,
          (send (Request "HEAD" (HttpClient.base_url self +:+ "/") None
                   (HttpClient.timeout self)) (server n)).1 = Responded response
          /\ 200 <= Response.status_code response < 300).
Proof.
  unfold ServiceMethods.health_check, try_except, HttpClient.head,
    HttpClient.session_request, mbind, M_bind.
  destruct (send _ (server n)) as [o w]. simpl.
  destruct o as [response| |e|e]; simpl.
  - exists (HttpClient.is_2xx (Response.status_code response)). split; [reflexivity|].
    rewrite is_2xx_spec. split.
    + intros H. by exists response.
    + by intros (r & [= <-] & H).
  - exists false. split; [reflexivity|]. split; [done|]. by intros (r & ? & _).
  - exists false. split; [reflexivity|]. split; [done|]. by intros (r & ? & _).
  - exists false. split; [reflexivity|]. split; [done|]. by intros (r & ? & _).
Qed.

End Transport.

(** HEAD on a missing account, a health check on a dead connection, and
    a commit of the empty list. *)
Example exists_on_404 :
  (AccountMethods.exists_ (always (Responded (Response.Make 404 (Some "Not Found") ∅ "" None)))
     localhost "no-such-account" (fresh tt)).1 = Return false.
Proof. reflexivity. Qed.

Example health_check_on_failure :
  (ServiceMethods.health_check (always (RaisedRequestException "connection refused"))
     localhost (fresh tt)).1 = Return false
  /\ (ServiceMethods.health_check (always (RaisedException "unexpected"))
        localhost (fresh tt)).1 = Return false.
Proof. split; reflexivity. Qed.

Example commit_empty_list_request :
  sent (BalanceMethods.commit (always RaisedTimeout) refusing localhost "acct" (Some [])
          (fresh tt)).2
  = [Request "POST" "http://localhost:8080/v1/accounts/acct/commit" None 30%float].
Proof. reflexivity. Qed.

(** C1 on a 404 whose body is the error object of the server. *)
Lemma request_maps_response_witness :
  (HttpClient._request
     (always (Responded (Response.Make 404 (Some "Not Found") ∅ "{...}"
        (Some (VDict (<["message" := VStr "Account not found"]> ∅))))))
     localhost "GET" "/v1/accounts/a1" None (fresh tt)).1
  = Raise (NetLedgerApiError 404 (VStr "Account not found") VNone).
Proof.
  pose proof (request_maps_response
    (always (Responded (Response.Make 404 (Some "Not Found") ∅ "{...}"
       (Some (VDict (<["message" := VStr "Account not found"]> ∅))))))
    localhost "GET" "/v1/accounts/a1" None (fresh tt) _ eq_refl) as (_ & _ & _ & H).
  exact (H ltac:(simpl; lia) _ eq_refl).
Defined.

(** C1 as stated fails on a response without a reason phrase: the body of
    this 500 carries no [message], the reason phrase is empty, and the
    message of the error is "Unknown error", not the reason phrase. *)
Lemma reason_phrase_counterexample :
  let response := Response.Make 500 (Some "") ∅ "" None in
  let result :=
    (HttpClient._request (always (Responded response)) localhost "GET" "/" None (fresh tt)).1 in
  result = Raise (NetLedgerApiError 500 (VStr "Unknown error") VNone)
  /\ result <> Raise (NetLedgerApiError 500 (VStr "") VNone).
Proof. split; [reflexivity | discriminate]. Qed.

(** The error body of a non-2xx answer may be JSON that is not an object;
    the lookup of [message] then fails and no API error is raised. *)
Example error_body_not_an_object :
  (HttpClient._request
     (always (Responded (Response.Make 502 (Some "Bad Gateway") ∅ "[]" (Some (VList [])))))
     localhost "GET" "/" None (fresh tt)).1
  = Raise AttributeError.
Proof. reflexivity. Qed.

(** ** Operation groups *)

Lemma le0_nonpositive (amount : Py.number) : Py.le0 amount = true <-> nonpositive amount.
Proof. destruct amount; simpl; [apply Z.leb_le | done]. Qed.

Section Operations.
Context {world : Type}.
Variable send : request -> world -> outcome * world.
Variable bi : Py.builtins.
Variable self : HttpClient.t.

(** Every call of [_request] sends exactly one request. *)
Lemma _request_sent (method path : string) (body : option value) (n : net world) :
  let req := Request method (HttpClient.base_url self +:+ path) body (HttpClient.timeout self) in
  (HttpClient._request send self method path body n).2
  = Net (send req (server n)).2 (sent n ++ [req]).
Proof.
  cbv zeta. rewrite _request_unfold. cbv zeta.
  destruct (send _ (server n)) as [o w]. simpl.
  destruct o as [response| |e|e]; try reflexivity.
  destruct (negb _); [destruct (Response.json response) as [[]|]; reflexivity|].
  destruct (Py.all_space _); [reflexivity|].
  destruct (Response.json response); reflexivity.
Qed.

(** A 2xx answer whose body reads as [data] comes back as an envelope. *)
Lemma _request_2xx (method path : string) (body : option value) (n : net world)
    (response : Response.t) (data : value) :
  (send (Request method (HttpClient.base_url self +:+ path) body (HttpClient.timeout self))
        (server n)).1 = Responded response ->
  200 <= Response.status_code response < 300 ->
  body_of response = Some data ->
  (HttpClient._request send self method path body n).1
  = Return (ApiResponse.Make data (Response.status_code response)
              (Response.headers response !! "x-request-guid")).
Proof.
  intros Hsend H2 Hbody. rewrite _request_unfold. cbv zeta.
  destruct (send _ (server n)) as [o w]. simpl in Hsend. subst o.
  apply is_2xx_spec in H2. rewrite H2. simpl. unfold body_of in Hbody.
  destruct (Py.all_space _); [by injection Hbody as <-|]. by rewrite Hbody.
Qed.

(** A 2xx answer whose body is neither blank nor JSON is an API error. *)
Lemma _request_2xx_unreadable (method path : string) (body : option value) (n : net world)
    (response : Response.t) :
  (send (Request method (HttpClient.base_url self +:+ path) body (HttpClient.timeout self))
        (server n)).1 = Responded response ->
  200 <= Response.status_code response < 300 ->
  body_of response = None ->
  (HttpClient._request send self method path body n).1
  = Raise (NetLedgerApiError (Response.status_code response)
             (VStr "Failed to parse response") VNone).
Proof.
  intros Hsend H2 Hbody. rewrite _request_unfold. cbv zeta.
  destruct (send _ (server n)) as [o w]. simpl in Hsend. subst o.
  apply is_2xx_spec in H2. rewrite H2. simpl. unfold body_of in Hbody.
  destruct (Py.all_space _); [done|]. by rewrite Hbody.
Qed.

(** An answer outside [200,300) whose body is not JSON, or is a JSON
    object, is an API error with the status of the answer. *)
Lemma _request_error (method path : string) (body : option value) (n : net world)
    (response : Response.t) :
  (send (Request method (HttpClient.base_url self +:+ path) body (HttpClient.timeout self))
        (server n)).1 = Responded response ->
  ¬ (200 <= Response.status_code response < 300) ->
  Response.json response = None \/ (exists d, Response.json response = Some (VDict d)) ->
  exists message details,
    (HttpClient._request send self method path body n).1
    = Raise (NetLedgerApiError (Response.status_code response) message details).
Proof.
  intros Hsend H2 Hbody. rewrite _request_unfold. cbv zeta.
  destruct (send _ (server n)) as [o w]. simpl in Hsend. subst o.
  apply is_2xx_false in H2. rewrite H2. simpl.
  destruct Hbody as [->|[d ->]]; by do 2 eexists.
Qed.

(** C5.  A non-positive amount makes [add_credit] and [add_debit] raise a
    validation error, and an empty list or a list with a non-positive
    amount makes [add_credits] and [add_debits] raise one, in each case
    before anything is sent: the network is left as it was. *)
Theorem validation_precedes_network (account_guid : string) (n : net world) :
  (forall amount description, nonpositive amount ->
     EntryMethods.add_credit send self account_guid amount description n
       = (Raise (NetLedgerValidationError "Amount must be greater than zero" (Some "amount")), n)
     /\ EntryMethods.add_debit send self account_guid amount description n
       = (Raise (NetLedgerValidationError "Amount must be greater than zero" (Some "amount")), n))
  /\ (forall entries,
        entries = [] \/ Exists (fun e => nonpositive (EntryInput.amount e)) entries ->
        exists message,
          EntryMethods.add_credits send self account_guid entries n
            = (Raise (NetLedgerValidationError message (Some "entries")), n)
          /\ EntryMethods.add_debits send self account_guid entries n
            = (Raise (NetLedgerValidationError message (Some "entries")), n)).
Proof.
  split.
  - intros amount description Hle. apply le0_nonpositive in Hle.
    unfold EntryMethods.add_credit, EntryMethods.add_debit, EntryMethods.add_one.
    by rewrite Hle.
  - intros entries [->|Hex].
    + eexists. split; reflexivity.
    + unfold EntryMethods.add_credits, EntryMethods.add_debits, EntryMethods.add_many.
      destruct entries as [|e0 entries]; [by apply Exists_nil in Hex|].
      rewrite bool_decide_eq_false_2 by done.
      assert (EntryMethods.check_amounts (e0 :: entries)
              = Raise (NetLedgerValidationError "All amounts must be greater than zero"
                         (Some "entries"))) as Hcheck.
      { induction Hex as [e l He|e l _ IH]; simpl.
        - apply le0_nonpositive in He. by rewrite He.
        - destruct (Py.le0 (EntryInput.amount e)); [reflexivity | exact IH]. }
      eexists. unfold mbind, M_bind, lift. rewrite Hcheck. split; reflexivity.
Qed.

End Operations.

(** C5 on the scenario of the specification, [add_credit(acct, 0)]. *)
Lemma validation_precedes_network_witness :
  EntryMethods.add_credit (always RaisedTimeout) localhost "acct" (Py.NInt 0) None (fresh tt)
  = (Raise (NetLedgerValidationError "Amount must be greater than zero" (Some "amount")),
     fresh tt).
Proof.
  exact (proj1 (proj1 (validation_precedes_network (always RaisedTimeout) localhost
                         "acct" (fresh tt)) (Py.NInt 0) None ltac:(simpl; lia))).
Defined.

Section Balance.
Context {world : Type}.
Variable send : request -> world -> outcome * world.
Variable bi : Py.builtins.
Variable self : HttpClient.t.

(** C10.  [commit] with the empty list is [commit] with [None]: the same
    computation, whose one request is a POST without a body.  Only a list
    with a guid in it is sent as [{EntryGuids: [...]}]. *)
Theorem commit_empty_list_commits_all (account_guid : string) (n : net world) :
  let url := HttpClient.base_url self +:+ "/v1/accounts/" +:+ account_guid +:+ "/commit" in
  BalanceMethods.commit send bi self account_guid (Some []) n
    = BalanceMethods.commit send bi self account_guid None n
  /\ sent (BalanceMethods.commit send bi self account_guid (Some []) n).2
     = sent n ++ [Request "POST" url None (HttpClient.timeout self)]
  /\ forall g l,
       sent (BalanceMethods.commit send bi self account_guid (Some (g :: l)) n).2
       = sent n ++ [Request "POST" url
                      (Some (VDict (<["EntryGuids" := VList (VStr <$> g :: l)]> ∅)))
                      (HttpClient.timeout self)].
Proof.
  assert (forall body,
    sent ((response ← HttpClient.post send self ("/v1/accounts/" +:+ account_guid +:+ "/commit") body;
           if negb (Py.truthy (ApiResponse.data response))
           then raise (ValueError "No data returned from server")
           else lift (Balance.from_dict bi (ApiResponse.data response))) n).2
    = sent n ++ [Request "POST"
                   (HttpClient.base_url self +:+ "/v1/accounts/" +:+ account_guid +:+ "/commit")
                   body (HttpClient.timeout self)]) as Hsent.
  { intros body. unfold mbind, M_bind, HttpClient.post.
    pose proof (_request_sent send self "POST"
                  ("/v1/accounts/" +:+ account_guid +:+ "/commit") body n) as Hreq.
    cbv zeta in Hreq.
    destruct (HttpClient._request send self "POST" _ body n) as [[response|e] n'];
      simpl in Hreq; subst n'; [|reflexivity].
    unfold raise, lift. by destruct (negb _). }
  cbv zeta. split; [reflexivity|]. split; [apply Hsent|]. intros g l. apply Hsent.
Qed.

(** C4, as the code has it.  When the server answers the verification
    request: a 200 whose body is blank or JSON gives [True]; a 409 whose
    body is not JSON or is a JSON object gives [False]; any other status
    outside [200,300) with such a body raises an API error with that
    status. *)
Theorem verify_by_status (account_guid : string) (n : net world) (response : Response.t) :
  (send (Request "GET" (HttpClient.base_url self +:+ "/v1/accounts/" +:+ account_guid +:+ "/verify")
           None (HttpClient.timeout self)) (server n)).1 = Responded response ->
  let status := Response.status_code response in
  let result := (BalanceMethods.verify send self account_guid n).1 in
  let error_body :=
    Response.json response = None \/ exists d, Response.json response = Some (VDict d) in
  (status = 200 -> is_Some (body_of response) -> result = Return true)
  /\ (status = 409 -> error_body -> result = Return false)
  /\ (¬ (200 <= status < 300) -> status <> 409 -> error_body ->
      exists message details, result = Raise (NetLedgerApiError status message details)).
Proof.
  intros Hsend status result error_body. subst result error_body.
  unfold BalanceMethods.verify, try_except, mbind, M_bind, HttpClient.get.
  split; [|split].
  - intros H200 [data Hdata].
    pose proof (_request_2xx send self "GET" _ None n response data Hsend
                  ltac:(fold status; lia) Hdata) as Hok.
    destruct (HttpClient._request send self "GET" _ None n) as [r n']. simpl in Hok. subst r.
    simpl. fold status. by rewrite H200.
  - intros H409 Hbody.
    destruct (_request_error send self "GET" _ None n response Hsend
                ltac:(fold status; lia) Hbody) as (m & d & Herr).
    destruct (HttpClient._request send self "GET" _ None n) as [r n']. simpl in Herr. subst r.
    simpl. fold status. by rewrite H409.
  - intros Hnot Hne Hbody.
    destruct (_request_error send self "GET" _ None n response Hsend Hnot Hbody)
      as (m & d & Herr).
    destruct (HttpClient._request send self "GET" _ None n) as [r n']. simpl in Herr. subst r.
    simpl. fold status. apply Z.eqb_neq in Hne. rewrite Hne. by exists m, d.
Qed.

End Balance.

(** C4 on a chain that the server reports as broken. *)
Lemma verify_by_status_witness :
  (BalanceMethods.verify
     (always (Responded (Response.Make 409 (Some "Conflict") ∅ "{...}"
        (Some (VDict (<["message" := VStr "Balance chain is invalid"]> ∅))))))
     localhost "acct" (fresh tt)).1 = Return false.
Proof.
  pose proof (verify_by_status
    (always (Responded (Response.Make 409 (Some "Conflict") ∅ "{...}"
       (Some (VDict (<["message" := VStr "Balance chain is invalid"]> ∅))))))
    localhost "acct" (fresh tt) _ eq_refl) as (_ & H & _).
  exact (H eq_refl (or_intror (ex_intro _ _ eq_refl))).
Defined.

(** C4 as stated fails on a 200 whose body is not JSON: the transport
    turns it into an API error with status 200, which [verify] lets
    through. *)
Lemma verify_counterexample :
  let result :=
    (BalanceMethods.verify
       (always (Responded (Response.Make 200 (Some "OK") ∅ "OK" None)))
       localhost "acct" (fresh tt)).1 in
  result = Raise (NetLedgerApiError 200 (VStr "Failed to parse response") VNone)
  /\ result <> Return true.
Proof. split; [reflexivity | discriminate]. Qed.

Section Guids.
Context {world : Type}.
Variable send : request -> world -> outcome * world.
Variable self : HttpClient.t.

Lemma put_2xx (path : string) (body : option value) (n : net world)
    (response : Response.t) (data : value) :
  (forall req, (send req (server n)).1 = Responded response) ->
  200 <= Response.status_code response < 300 ->
  body_of response = Some data ->
  exists n' status guid,
    HttpClient.put send self path body n = (Return (ApiResponse.Make data status guid), n').
Proof.
  intros Hsend H2 Hbody.
  pose proof (_request_2xx send self "PUT" path body n response data (Hsend _) H2 Hbody) as H.
  unfold HttpClient.put. destruct (HttpClient._request send self "PUT" path body n) as [r n'].
  simpl in H. subst r. by do 3 eexists.
Qed.

(** C6, as the code has it.  Let the server answer with a 2xx status and
    a body that is blank or JSON, and let that body be of the shape the
    endpoint documents ([entry_guids_of]: missing, falsy, or an object
    whose [EntryGuids], if any, is a list).  Then [add_credit] and
    [add_debit] return the first guid of the list, and raise [ValueError]
    exactly when there is none; [add_credits] and [add_debits] return the
    whole list in order, the empty list when there is none. *)
Theorem created_guids (account_guid : string) (n : net world) (response : Response.t)
    (data : value) (guids : list value) :
  (forall req, (send req (server n)).1 = Responded response) ->
  200 <= Response.status_code response < 300 ->
  body_of response = Some data ->
  entry_guids_of data = Some guids ->
  (forall amount description, ¬ nonpositive amount ->
     let credit := (EntryMethods.add_credit send self account_guid amount description n).1 in
     let debit := (EntryMethods.add_debit send self account_guid amount description n).1 in
     match guids with
     | g :: _ => credit = Return g /\ debit = Return g
     | [] => exists message, credit = Raise (ValueError message)
                          /\ debit = Raise (ValueError message)
     end)
  /\ (forall entries,
        entries <> [] -> Forall (fun e => ¬ nonpositive (EntryInput.amount e)) entries ->
        (EntryMethods.add_credits send self account_guid entries n).1 = Return (VList guids)
        /\ (EntryMethods.add_debits send self account_guid entries n).1 = Return (VList guids)).
Proof.
  intros Hsend H2 Hbody Hguids. split.
  - intros amount description Hpos.
    assert (Py.le0 amount = false) as Hle.
    { destruct (Py.le0 amount) eqn:E; [|done]. by apply le0_nonpositive in E. }
    assert (forall segment,
      (EntryMethods.add_one send self segment account_guid amount description n).1
      = match guids with
        | g :: _ => Return g
        | [] => Raise (ValueError (if Py.truthy data then "No entry GUID returned from server"
                                   else "No data returned from server"))
        end) as Hone.
    { intros segment. unfold EntryMethods.add_one. rewrite Hle. unfold mbind, M_bind.
      destruct (put_2xx ("/v1/accounts/" +:+ account_guid +:+ segment)
                  (Some (VDict (if Py.nonempty description
                                then <["Notes" := Py.of_optional_str description]>
                                       (<["Amount" := Py.of_number amount]> ∅)
                                else <["Amount" := Py.of_number amount]> ∅)))
                  n response data Hsend H2 Hbody) as (n' & st & g & ->).
      simpl. unfold entry_guids_of in Hguids.
      destruct (Py.truthy data) eqn:Ht; simpl in *; [|by injection Hguids as <-].
      destruct data as [| | | | | |d]; try discriminate. simpl. unfold Py.dict_get.
      destruct (d !! "EntryGuids") as [[| | | | |l|]|]; try discriminate;
        injection Hguids as <-; [|reflexivity].
      destruct l; reflexivity. }
    cbv zeta. unfold EntryMethods.add_credit, EntryMethods.add_debit. rewrite !Hone.
    destruct guids; [by eexists | done].
  - intros entries Hne Hall.
    assert (EntryMethods.check_amounts entries = Return tt) as Hcheck.
    { clear Hne. induction Hall as [|e l He _ IH]; simpl; [reflexivity|].
      destruct (Py.le0 (EntryInput.amount e)) eqn:E; [by apply le0_nonpositive in E | exact IH]. }
    assert (forall segment,
      (EntryMethods.add_many send self segment account_guid entries n).1 = Return (VList guids))
      as Hmany.
    { intros segment. unfold EntryMethods.add_many.
      rewrite bool_decide_eq_false_2 by (by destruct entries).
      unfold mbind, M_bind, lift at 1. rewrite Hcheck.
      destruct (put_2xx ("/v1/accounts/" +:+ account_guid +:+ segment)
                  (Some (VDict (<["Entries" := VList (EntryMethods.entry_payload <$> entries)]> ∅)))
                  n response data Hsend H2 Hbody) as (n' & st & g & ->).
      simpl. unfold entry_guids_of in Hguids.
      destruct (Py.truthy data) eqn:Ht; simpl in *; [|by injection Hguids as <-].
      destruct data as [| | | | | |d]; try discriminate. simpl. unfold Py.dict_get.
      destruct (d !! "EntryGuids") as [[| | | | |l|]|]; try discriminate;
        by injection Hguids as <-. }
    unfold EntryMethods.add_credits, EntryMethods.add_debits. by rewrite !Hmany.
Qed.

End Guids.

(** C6 on the answer of the server to a single credit. *)
Lemma created_guids_witness :
  (EntryMethods.add_credit
     (always (Responded (Response.Make 201 (Some "Created") ∅ "{...}"
        (Some (VDict (<["EntryGuids" := VList [VStr "e-1"]]> ∅))))))
     localhost "acct" (Py.NInt 10) (Some "rent") (fresh tt)).1 = Return (VStr "e-1").
Proof.
  pose proof (created_guids
    (always (Responded (Response.Make 201 (Some "Created") ∅ "{...}"
       (Some (VDict (<["EntryGuids" := VList [VStr "e-1"]]> ∅))))))
    localhost "acct" (fresh tt) _ _ [VStr "e-1"]
    (fun _ => eq_refl) ltac:(simpl; lia) eq_refl eq_refl) as [H _].
  exact (proj1 (H (Py.NInt 10) (Some "rent") ltac:(simpl; lia))).
Defined.

(** C6 as stated fails on a 2xx answer whose body is not JSON: no guid
    came back, and what is raised is the API error of the transport, by
    the single-entry operations and by the batch operations alike. *)
Lemma created_guids_counterexample :
  let send := always (Responded (Response.Make 200 (Some "OK") ∅ "OK" None)) in
  let unreadable := Raise (NetLedgerApiError 200 (VStr "Failed to parse response") VNone) in
  (EntryMethods.add_credit send localhost "acct" (Py.NInt 10) None (fresh tt)).1 = unreadable
  /\ (EntryMethods.add_credits send localhost "acct" [EntryInput.Make (Py.NInt 10) None]
        (fresh tt)).1 = unreadable.
Proof. split; reflexivity. Qed.

(** ** Domain model *)

(** C2.  The discriminator decodes from the integer codes 0, 1, 2 and
    from the names "Credit", "Debit", "Balance" to the three members,
    whose values are those codes; every other string decodes to
    [CREDIT].  [Entry.from_dict] returns an entry of the decoded type
    whenever the discriminator and the amount of the wire object
    decode. *)
Theorem entry_type_decoding :
  (Entry.decode_type (VInt 0) = Return CREDIT
   /\ Entry.decode_type (VInt 1) = Return DEBIT
   /\ Entry.decode_type (VInt 2) = Return BALANCE)
  /\ (Entry.decode_type (VStr "Credit") = Return CREDIT
      /\ Entry.decode_type (VStr "Debit") = Return DEBIT
      /\ Entry.decode_type (VStr "Balance") = Return BALANCE)
  /\ (forall s, s <> "Credit" -> s <> "Debit" -> s <> "Balance" ->
      Entry.decode_type (VStr s) = Return CREDIT)
  /\ (EntryType.value CREDIT = 0 /\ EntryType.value DEBIT = 1 /\ EntryType.value BALANCE = 2)
  /\ (forall bi d t a,
        Entry.decode_type (Py.dict_get d "Type" (VInt 0)) = Return t ->
        Py.to_float bi (Py.dict_get d "Amount" (VInt 0)) = Return a ->
        exists e, Entry.from_dict bi (VDict d) = Return e
                  /\ Entry.type e = t /\ Entry.amount e = a).
Proof.
  split; [by repeat split|]. split; [by repeat split|]. split; [|split; [by repeat split|]].
  - intros s H1 H2 H3. unfold Entry.decode_type, Py.dict_get, Entry.type_map.
    by rewrite !lookup_insert_ne, lookup_empty by done.
  - intros bi d t a Ht Ha. unfold Entry.from_dict. simpl. rewrite Ht. simpl. rewrite Ha. simpl.
    by eexists.
Qed.

(** C2 on a name in lower case, which is none of the three. *)
Lemma entry_type_decoding_witness : Entry.decode_type (VStr "credit") = Return CREDIT.
Proof.
  exact (proj1 (proj2 (proj2 entry_type_decoding)) "credit"
           ltac:(discriminate) ltac:(discriminate) ltac:(discriminate)).
Defined.

Lemma sent_text_nonempty (o : option string) :
  (if Py.nonempty o then Some (Py.of_optional_str o) else None) = VStr <$> sent_text o.
Proof. by destruct o as [[|c s]|]. Qed.

Lemma sent_text_stated (o : option string) : o <> Some "" -> sent_text o = o.
Proof. by destruct o as [[|c s]|]. Qed.

Lemma EnumerationOrder_value_inj (o1 o2 : EnumerationOrder) :
  EnumerationOrder.value o1 = EnumerationOrder.value o2 -> o1 = o2.
Proof. by destruct o1, o2. Qed.

Lemma of_number_inj (n1 n2 : Py.number) : Py.of_number n1 = Py.of_number n2 -> n1 = n2.
Proof. destruct n1, n2; simpl; congruence. Qed.

(** The seven members of the payload. *)
Lemma to_dict_lookup (q : EntryEnumerationQuery.t) :
  let payload := EntryEnumerationQuery.to_dict q in
  payload !! "MaxResults" = Some (VInt (EntryEnumerationQuery.max_results q))
  /\ payload !! "Ordering"
     = Some (VInt (EnumerationOrder.value (EntryEnumerationQuery.ordering q)))
  /\ payload !! "ContinuationToken"
     = VStr <$> sent_text (EntryEnumerationQuery.continuation_token q)
  /\ payload !! "CreatedAfterUtc"
     = VStr <$> sent_text (EntryEnumerationQuery.created_after_utc q)
  /\ payload !! "CreatedBeforeUtc"
     = VStr <$> sent_text (EntryEnumerationQuery.created_before_utc q)
  /\ payload !! "AmountMinimum" = Py.of_number <$> EntryEnumerationQuery.amount_min q
  /\ payload !! "AmountMaximum" = Py.of_number <$> EntryEnumerationQuery.amount_max q.
Proof.
  destruct q as [m ct ca cb lo hi o]. cbv zeta.
  unfold EntryEnumerationQuery.to_dict, EntryEnumerationQuery.set_str,
    EntryEnumerationQuery.set_if, EntryEnumerationQuery.set_num. simpl.
  destruct ct as [[|? ?]|], ca as [[|? ?]|], cb as [[|? ?]|], lo, hi; simpl;
    repeat split; reflexivity.
Qed.

(** C7, as the code has it.  The payload always has [MaxResults] and
    [Ordering]; it has [ContinuationToken], [CreatedAfterUtc] and
    [CreatedBeforeUtc] exactly when the field is set to a string that is
    not empty, and [AmountMinimum] and [AmountMaximum] exactly when the
    field is not [None]; every member carries the value of its field
    unchanged.  The payload determines every field it carries, so two
    queries without empty strings that encode alike are the same query. *)
Theorem to_dict_lossless (q : EntryEnumerationQuery.t) :
  let payload := EntryEnumerationQuery.to_dict q in
  (payload !! "MaxResults" = Some (VInt (EntryEnumerationQuery.max_results q))
   /\ payload !! "Ordering"
      = Some (VInt (EnumerationOrder.value (EntryEnumerationQuery.ordering q)))
   /\ payload !! "ContinuationToken"
      = VStr <$> sent_text (EntryEnumerationQuery.continuation_token q)
   /\ payload !! "CreatedAfterUtc"
      = VStr <$> sent_text (EntryEnumerationQuery.created_after_utc q)
   /\ payload !! "CreatedBeforeUtc"
      = VStr <$> sent_text (EntryEnumerationQuery.created_before_utc q)
   /\ payload !! "AmountMinimum" = Py.of_number <$> EntryEnumerationQuery.amount_min q
   /\ payload !! "AmountMaximum" = Py.of_number <$> EntryEnumerationQuery.amount_max q)
  /\ (forall q', no_empty_text q -> no_empty_text q' ->
      EntryEnumerationQuery.to_dict q = EntryEnumerationQuery.to_dict q' -> q = q').
Proof.
  cbv zeta. split; [apply to_dict_lookup|].
  - intros q' (H1 & H2 & H3) (H1' & H2' & H3') Heq.
    pose proof (to_dict_lookup q) as (L1 & L2 & L3 & L4 & L5 & L6 & L7).
    pose proof (to_dict_lookup q') as (R1 & R2 & R3 & R4 & R5 & R6 & R7).
    cbv zeta in *. rewrite Heq in *.
    rewrite sent_text_stated in L3, L4, L5, R3, R4, R5 by done.
    rewrite L1 in R1. rewrite L2 in R2. rewrite L3 in R3. rewrite L4 in R4.
    rewrite L5 in R5. rewrite L6 in R6. rewrite L7 in R7.
    destruct q as [m ct ca cb lo hi o], q' as [m' ct' ca' cb' lo' hi' o']. simpl in *.
    injection R1 as ->. injection R2 as R2. apply EnumerationOrder_value_inj in R2 as ->.
    assert (forall a b : option string, VStr <$> a = VStr <$> b -> a = b) as Hs.
    { intros [a|] [b|]; simpl; congruence. }
    assert (forall a b : option Py.number, Py.of_number <$> a = Py.of_number <$> b -> a = b) as Hn.
    { intros [a|] [b|]; simpl; try congruence. intros [= H]. by apply of_number_inj in H as ->. }
    apply Hs in R3 as ->. apply Hs in R4 as ->. apply Hs in R5 as ->.
    apply Hn in R6 as ->. by apply Hn in R7 as ->.
Qed.

(** C7: two pages of one enumeration are asked for with different payloads. *)
Lemma to_dict_lossless_witness :
  EntryEnumerationQuery.to_dict
    (EntryEnumerationQuery.Make 5 (Some "5") None None None None AMOUNT_ASCENDING)
  <> EntryEnumerationQuery.to_dict
    (EntryEnumerationQuery.Make 5 (Some "10") None None None None AMOUNT_ASCENDING).
Proof.
  intros Heq.
  pose proof (proj2 (to_dict_lossless
    (EntryEnumerationQuery.Make 5 (Some "5") None None None None AMOUNT_ASCENDING))
    (EntryEnumerationQuery.Make 5 (Some "10") None None None None AMOUNT_ASCENDING)
    ltac:(by repeat split) ltac:(by repeat split) Heq) as H.
  discriminate H.
Defined.

(** C7 as stated fails on a field set to the empty string: the token of
    this query is populated, yet the payload has no [ContinuationToken]
    and is the payload of the default query, which has no token. *)
Lemma to_dict_counterexample :
  let q := EntryEnumerationQuery.Make 100 (Some "") None None None None CREATED_DESCENDING in
  EntryEnumerationQuery.continuation_token q = Some ""
  /\ EntryEnumerationQuery.to_dict q !! "ContinuationToken" = None
  /\ EntryEnumerationQuery.to_dict q
     = EntryEnumerationQuery.to_dict EntryEnumerationQuery.default
  /\ q <> EntryEnumerationQuery.default.
Proof. by repeat split. Qed.

(** ** Pagination *)

Lemma token_roundtrip (k : nat) : Server.offset_of_token (Server.token_of_offset k) = Some k.
Proof.
  unfold Server.offset_of_token, Server.token_of_offset.
  rewrite NilEmpty.usu. simpl. by rewrite DecimalNat.Unsigned.of_to.
Qed.

Lemma token_nonempty (k : nat) : (0 < k)%nat -> Server.token_of_offset k <> "".
Proof.
  intros Hk Hempty. pose proof (token_roundtrip k) as Hrt. rewrite Hempty in Hrt.
  vm_compute in Hrt. injection Hrt as <-. lia.
Qed.

Lemma comprehension_Forall2 {A : Type} (f : value -> Result A) (l : list value) (r : list A) :
  Py.comprehension f l = Return r <-> Forall2 (fun o a => f o = Return a) l r.
Proof.
  revert r. induction l as [|o l IH]; intros r; simpl.
  - split; [by intros [= <-]; constructor | by inversion 1].
  - split.
    + destruct (f o) as [a|e] eqn:Ho; simpl; [|done].
      destruct (Py.comprehension f l) as [r'|e] eqn:Hl; simpl; [|done].
      intros [= <-]. constructor; [done | by apply IH].
    + inversion 1 as [|? a ? r' Ho Hl]; subst. rewrite Ho. simpl.
      apply IH in Hl. by rewrite Hl.
Qed.

(** The five members of a page, as the server writes it. *)
Lemma enumerate_page_lookup (records : list value) (m k : nat) :
  let page := take m (drop k records) in
  let remaining := (length records - (k + length page))%nat in
  let body := Server.enumerate_page records m k in
  body !! "Objects" = Some (VList page)
  /\ body !! "TotalRecords" = Some (VInt (Z.of_nat (length records)))
  /\ body !! "RecordsRemaining" = Some (VInt (Z.of_nat remaining))
  /\ body !! "EndOfResults" = Some (VBool (remaining =? 0)%nat)
  /\ body !! "ContinuationToken"
     = Some (if (remaining =? 0)%nat then VNone
             else VStr (Server.token_of_offset (k + length page))).
Proof. by repeat split. Qed.

(** The pages of one enumeration are asked for under the same query. *)
Lemma filter_of_with_token (q : EntryEnumerationQuery.t) (token : option string) :
  Server.filter_of (EntryEnumerationQuery.to_dict (with_token q token))
  = Server.filter_of (EntryEnumerationQuery.to_dict q).
Proof.
  destruct q as [m ct ca cb lo hi o].
  unfold with_token, Server.filter_of, EntryEnumerationQuery.to_dict,
    EntryEnumerationQuery.set_str, EntryEnumerationQuery.set_if, EntryEnumerationQuery.set_num.
  simpl.
  destruct token as [[|? ?]|], ct as [[|? ?]|], ca as [[|? ?]|], cb as [[|? ?]|], lo, hi;
    reflexivity.
Qed.

Section Pagination.
Variable select : gmap string value -> list value.
Variable dumps : value -> string.
Hypothesis dumps_not_blank : forall v, Py.all_space (dumps v) = false.
Variable bi : Py.builtins.
Variable client : HttpClient.t.
Variable account_guid : string.
Variable q : EntryEnumerationQuery.t.
Variable entries : list Entry.t.
Hypothesis max_results_positive : 0 < EntryEnumerationQuery.max_results q.
Hypothesis records_decode :
  Py.comprehension (Entry.from_dict bi)
    (select (Server.filter_of (EntryEnumerationQuery.to_dict q))) = Return entries.

Local Abbreviation records := (select (Server.filter_of (EntryEnumerationQuery.to_dict q))).
Local Abbreviation m := (Z.to_nat (EntryEnumerationQuery.max_results q)).
Local Abbreviation server := (Server.send select dumps).

Lemma records_length : length records = length entries.
Proof using records_decode.
  apply comprehension_Forall2 in records_decode. by apply Forall2_length in records_decode.
Qed.

Lemma page_decodes (k : nat) :
  Py.comprehension (Entry.from_dict bi) (take m (drop k records))
  = Return (take m (drop k entries)).
Proof using records_decode.
  apply comprehension_Forall2. apply Forall2_take, Forall2_drop.
  by apply comprehension_Forall2.
Qed.

(** The answer of the server to the query with a token that points at [k]. *)
Lemma server_answers (token : option string) (k : nat) (req : request) :
  points_at token k ->
  json_body req = Some (VDict (EntryEnumerationQuery.to_dict (with_token q token))) ->
  Server.enumerate select dumps req
  = Responded (Response.Make 200 (Some "OK") ∅
                 (dumps (VDict (Server.enumerate_page records m k)))
                 (Some (VDict (Server.enumerate_page records m k)))).
Proof using max_results_positive.
  intros Hk Hbody. unfold Server.enumerate. rewrite Hbody.
  pose proof (to_dict_lookup (with_token q token)) as (L1 & _ & L3 & _). cbv zeta in L1, L3.
  unfold Server.page_size, Server.cursor. rewrite L1, L3. simpl.
  apply Z.ltb_lt in max_results_positive as ->. rewrite filter_of_with_token.
  destruct Hk as [[-> ->]|[-> Hk]]; [reflexivity|].
  pose proof (token_nonempty k Hk) as Hne.
  destruct (Server.token_of_offset k) as [|c s] eqn:Htok; [done|]. simpl.
  by rewrite <- Htok, token_roundtrip.
Qed.

(** One call of [enumerate] gives the expected page. *)
Lemma enumerate_page_at (token : option string) (k : nat) (n : net unit) :
  points_at token k ->
  (EntryMethods.enumerate server bi client account_guid (Some (with_token q token)) n).1
  = Return (expected_page entries m k).
Proof using dumps_not_blank max_results_positive records_decode.
  intros Hk. unfold EntryMethods.enumerate, mbind, M_bind, HttpClient.post.
  set (body := VDict (Server.enumerate_page records m k)).
  pose proof (_request_2xx server client "POST"
                ("/v1/accounts/" +:+ account_guid +:+ "/entries/enumerate")
                (Some (VDict (EntryEnumerationQuery.to_dict (with_token q token)))) n
                (Response.Make 200 (Some "OK") ∅ (dumps body) (Some body)) body) as Hreq.
  simpl in Hreq.
  specialize (Hreq (server_answers token k
    (Request "POST"
       (HttpClient.base_url client +:+ "/v1/accounts/" +:+ account_guid +:+ "/entries/enumerate")
       (Some (VDict (EntryEnumerationQuery.to_dict (with_token q token))))
       (HttpClient.timeout client)) Hk eq_refl)).
  assert (200 <= 200 < 300) as H2 by lia. specialize (Hreq H2). clear H2.
  unfold body_of in Hreq. simpl in Hreq. rewrite dumps_not_blank in Hreq.
  specialize (Hreq eq_refl).
  destruct (HttpClient._request server client "POST" _ _ n) as [r n']. simpl in Hreq. subst r.
  cbn [default ApiResponse.data].
  assert (Py.truthy body = true) as ->.
  { simpl. apply negb_true_iff, bool_decide_eq_false_2.
    rewrite map_size_empty_iff. unfold Server.enumerate_page. apply insert_non_empty. }
  cbn [negb lift fst]. unfold EnumerationResult.from_dict, body. cbn [Py.get mbind Result_bind].
  pose proof (enumerate_page_lookup records m k) as (L1 & L2 & L3 & L4 & L5). cbv zeta in *.
  unfold Py.dict_get. rewrite L1, L2, L3, L4, L5.
  pose proof (page_decodes k) as Hdec. apply comprehension_Forall2 in Hdec as Hlen.
  apply Forall2_length in Hlen.
  unfold expected_page. cbv zeta. rewrite <- Hlen, <- records_length.
  destruct (take m (drop k records)) as [|o page] eqn:Hpage.
  - destruct (take m (drop k entries)); [reflexivity | done].
  - cbn [Py.truthy length]. rewrite bool_decide_eq_false_2 by done.
    cbn [negb Py.iter mbind Result_bind]. rewrite Hdec.
    by destruct (take m (drop k entries)).
Qed.

(** The pages from offset [k] on, with the counts [rs] of records that
    remain after each. *)
Lemma follow_pages_from (fuel : nat) (token : option string) (k : nat) (n : net unit) :
  points_at token k ->
  (k < length entries)%nat ->
  (length entries - k <= fuel)%nat ->
  exists (pages : list (EnumerationResult.t Entry.t)) (rs : list nat),
    (follow_pages server bi client fuel account_guid (with_token q token) n).1
      = Return (Some pages)
    /\ concat (page_entries <$> pages) = drop k entries
    /\ Forall (fun p => EnumerationResult.total_records p
                        = VInt (Z.of_nat (length entries))) pages
    /\ EnumerationResult.records_remaining <$> pages = (fun r => VInt (Z.of_nat r)) <$> rs
    /\ StronglySorted (fun a b => (b < a)%nat) rs
    /\ Forall (fun r => (r < length entries - k)%nat) rs
    /\ last rs = Some 0%nat
    /\ Forall (fun p => EnumerationResult.end_of_results p = VBool true
                        <-> EnumerationResult.records_remaining p = VInt 0) pages.
Proof using dumps_not_blank max_results_positive records_decode.
  revert token k n. induction fuel as [|fuel IH]; intros token k n Hk Hlt Hfuel; [lia|].
  cbn [follow_pages]. unfold mbind, M_bind.
  pose proof (enumerate_page_at token k n Hk) as Hpage.
  destruct (EntryMethods.enumerate server bi client account_guid (Some (with_token q token)) n)
    as [r n1]. simpl in Hpage. subst r. cbv beta iota.
  assert (length (take m (drop k entries)) = (m `min` (length entries - k))%nat) as Hlen.
  { by rewrite length_take, length_drop. }
  assert (page_entries (expected_page entries m k) = take m (drop k entries)) as Hentries.
  { unfold page_entries, expected_page. simpl. by destruct (take m (drop k entries)). }
  destruct ((length entries - (k + length (take m (drop k entries))))%nat =? 0)%nat eqn:Hrem.
  - (* the last page *)
    apply Nat.eqb_eq in Hrem.
    exists [expected_page entries m k], [0%nat].
    unfold expected_page at 1. cbn [EnumerationResult.end_of_results].
    apply Nat.eqb_eq in Hrem as Hrem'. rewrite Hrem'. cbn [Py.truthy].
    split; [reflexivity|]. split.
    { simpl. rewrite app_nil_r, Hentries. apply take_ge. rewrite length_drop. lia. }
    split; [by repeat constructor|]. split.
    { simpl. unfold expected_page. simpl. by rewrite Hrem. }
    split; [by repeat constructor|]. split; [repeat constructor; lia|].
    split; [reflexivity|]. constructor; [|constructor].
    unfold expected_page. simpl. by rewrite Hrem', Hrem.
  - (* a page with more to come *)
    apply Nat.eqb_neq in Hrem as Hrem'.
    assert (length (take m (drop k entries)) = m) as Hm by lia.
    assert (0 < m)%nat as Hpos by lia.
    unfold expected_page at 1. cbn [EnumerationResult.end_of_results].
    rewrite Hrem. cbn [Py.truthy].
    unfold expected_page at 1. cbn [EnumerationResult.continuation_token]. rewrite Hrem.
    rewrite Hm. unfold token_to_echo.
    pose proof (token_nonempty (k + m) ltac:(lia)) as Hne.
    apply String.eqb_neq in Hne. rewrite Hne.
    change (with_token (with_token q token) ?t) with (with_token q t).
    destruct (IH (Some (Server.token_of_offset (k + m))) (k + m)%nat n1)
      as (pages & rs & Hrun & Hcat & Htotal & Hrs & Hsorted & Hbound & Hlast & Hend).
    { right. split; [reflexivity | lia]. }
    { lia. }
    { lia. }
    destruct (follow_pages server bi client fuel account_guid _ n1) as [r n2].
    simpl in Hrun. subst r. cbn [fst mret M_ret fmap option_fmap option_map].
    exists (expected_page entries m k :: pages), ((length entries - (k + m))%nat :: rs).
    split; [reflexivity|]. split.
    { rewrite fmap_cons. cbn [concat]. rewrite Hentries, Hcat.
      rewrite <- drop_drop. apply take_drop. }
    split; [by constructor|]. split.
    { rewrite !fmap_cons, Hrs. f_equal. unfold expected_page. simpl. by rewrite Hm. }
    split; [by constructor|]. split.
    { constructor; [lia|]. eapply Forall_impl; [exact Hbound|]. simpl. lia. }
    split.
    { destruct rs; [done|]. exact Hlast. }
    constructor; [|exact Hend].
    unfold expected_page. simpl. rewrite Hrem. split; [done|].
    intros [= H0]. lia.
Qed.

(** C3, against the server as the specification describes it.  Start an
    enumeration without a token and follow the tokens.  Given fuel for one
    call more than there are matching entries, the pages come back, and:
    their entries, concatenated, are the matching entries in the order of
    the server, each once and none missing, and every page reports their
    number as [total_records]; the [records_remaining] of the pages
    decrease strictly and end in 0; on every page [end_of_results] is
    [True] exactly when [records_remaining] is 0. *)
Theorem pagination_invariant (fuel : nat) (n : net unit) :
  EntryEnumerationQuery.continuation_token q = None ->
  (length entries < fuel)%nat ->
  exists (pages : list (EnumerationResult.t Entry.t)) (rs : list nat),
    (follow_pages server bi client fuel account_guid q n).1 = Return (Some pages)
    /\ concat (page_entries <$> pages) = entries
    /\ Forall (fun p => EnumerationResult.total_records p
                        = VInt (Z.of_nat (length (concat (page_entries <$> pages))))) pages
    /\ EnumerationResult.records_remaining <$> pages = (fun r => VInt (Z.of_nat r)) <$> rs
    /\ StronglySorted (fun a b => (b < a)%nat) rs
    /\ last rs = Some 0%nat
    /\ Forall (fun p => EnumerationResult.end_of_results p = VBool true
                        <-> EnumerationResult.records_remaining p = VInt 0) pages.
Proof using dumps_not_blank max_results_positive records_decode.
  intros Htoken Hfuel.
  assert (with_token q None = q) as Hq.
  { destruct q. simpl in Htoken. by subst. }
  destruct (decide (length entries = 0%nat)) as [Hnil|Hcons].
  - (* nothing matches: one empty page *)
    destruct fuel as [|fuel]; [lia|]. apply nil_length_inv in Hnil.
    pose proof (enumerate_page_at None 0 n (or_introl (conj eq_refl eq_refl))) as Hpage.
    rewrite Hq, Hnil in Hpage. cbn [follow_pages]. unfold mbind, M_bind.
    destruct (EntryMethods.enumerate server bi client account_guid (Some q) n) as [r n1].
    simpl in Hpage. subst r. rewrite Hnil.
    exists [expected_page [] m 0], [0%nat].
    unfold expected_page. rewrite drop_nil, take_nil. simpl.
    split; [reflexivity|]. split; [reflexivity|]. split; [by repeat constructor|].
    split; [reflexivity|]. split; [by repeat constructor|]. split; [reflexivity|].
    by repeat constructor.
  - destruct (follow_pages_from fuel None 0 n (or_introl (conj eq_refl eq_refl)))
      as (pages & rs & Hrun & Hcat & Htotal & Hrs & Hsorted & _ & Hlast & Hend); [lia..|].
    rewrite Hq in Hrun. rewrite drop_0 in Hcat.
    exists pages, rs. rewrite Hcat. by repeat split.
Qed.

End Pagination.

(** C3 on the scenario of the specification. *)
Lemma pagination_invariant_witness :
  exists (pages : list (EnumerationResult.t Entry.t)) (rs : list nat),
    (follow_pages (Server.send scenario_select placeholder) refusing localhost 16 "acct"
       scenario_query (fresh tt)).1 = Return (Some pages)
    /\ concat (page_entries <$> pages) = scenario_entry <$> scenario_amounts
    /\ Forall (fun p => EnumerationResult.total_records p
                        = VInt (Z.of_nat (length (concat (page_entries <$> pages))))) pages
    /\ EnumerationResult.records_remaining <$> pages = (fun r => VInt (Z.of_nat r)) <$> rs
    /\ StronglySorted (fun a b => (b < a)%nat) rs
    /\ last rs = Some 0%nat
    /\ Forall (fun p => EnumerationResult.end_of_results p = VBool true
                        <-> EnumerationResult.records_remaining p = VInt 0) pages.
Proof.
  apply (pagination_invariant scenario_select placeholder (fun _ => eq_refl) refusing
           localhost "acct" scenario_query (scenario_entry <$> scenario_amounts)).
  - reflexivity.
  - vm_compute. reflexivity.
  - reflexivity.
  - vm_compute. lia.
Defined.

(** The scenario itself: three pages of five, the first one starting at
    5.00 and the last one ending at 100.00, [total_records] 15 on each
    and [end_of_results] on the third only. *)
Example pagination_scenario :
  let summary (p : EnumerationResult.t Entry.t) :=
    (EnumerationResult.total_records p, EnumerationResult.records_remaining p,
     EnumerationResult.end_of_results p, Entry.amount <$> page_entries p) in
  match (follow_pages (Server.send scenario_select placeholder) refusing localhost 16 "acct"
           scenario_query (fresh tt)).1 with
  | Return (Some pages) => summary <$> pages
  | _ => []
  end
  = [ (VInt 15, VInt 10, VBool false, [5; 10; 15; 20; 25]%float);
      (VInt 15, VInt 5, VBool false, [30; 35; 45; 50; 55]%float);
      (VInt 15, VInt 0, VBool true, [60; 75; 80; 90; 100]%float) ].
Proof. vm_compute. reflexivity. Qed.

(** * Further properties of the SDK *)

(** ** Transport *)

Section Transport_more.
Context {world : Type}.
Variable send : request -> world -> outcome * world.
Variable self : HttpClient.t.

(** X1.  [_request] returns an envelope only for an answer with a status
    in [200,300): the envelope then carries that status, the
    [x-request-guid] header of the answer, and the body of the answer as
    read ([None] for a blank body, the decoded JSON otherwise). *)
Theorem request_returns_only_2xx (method path : string) (body : option value)
    (n : net world) (envelope : ApiResponse.t) :
  (HttpClient._request send self method path body n).1 = Return envelope ->
  exists response,
    (send (Request method (HttpClient.base_url self +:+ path) body (HttpClient.timeout self))
          (server n)).1 = Responded response
    /\ 200 <= Response.status_code response < 300
    /\ ApiResponse.status_code envelope = Response.status_code response
    /\ ApiResponse.request_guid envelope = Response.headers response !! "x-request-guid"
    /\ body_of response = Some (ApiResponse.data envelope).
Proof.
  rewrite _request_unfold. cbv zeta. destruct (send _ (server n)) as [o w]. simpl.
  destruct o as [response| |e|e]; try discriminate.
  destruct (HttpClient.is_2xx (Response.status_code response)) eqn:H2; simpl.
  - apply is_2xx_spec in H2. unfold body_of.
    destruct (Py.all_space (Response.text response)) eqn:Hblank.
    + intros [= <-]. exists response. rewrite Hblank. repeat split; (done || lia).
    + destruct (Response.json response) as [data|] eqn:Hjson; [|discriminate].
      intros [= <-]. exists response. rewrite Hblank. repeat split; (done || lia).
  - by destruct (Response.json response) as [[]|].
Qed.

(** X2.  When the session fails, so does [_request], for every verb: a
    timeout becomes a connection error with the message "Request timed
    out" and no cause, any other request exception a connection error
    that wraps it, and an exception that is neither comes through
    unchanged. *)
Theorem request_connection_failures (method path : string) (body : option value)
    (n : net world) :
  let o := (send (Request method (HttpClient.base_url self +:+ path) body
                    (HttpClient.timeout self)) (server n)).1 in
  let result := (HttpClient._request send self method path body n).1 in
  (o = RaisedTimeout ->
     result = Raise (NetLedgerConnectionError "Request timed out" None))
  /\ (forall e, o = RaisedRequestException e ->
      result = Raise (NetLedgerConnectionError "Failed to connect to the server" (Some e)))
  /\ (forall e, o = RaisedException e -> result = Raise (OtherException e)).
Proof.
  cbv zeta. rewrite _request_unfold. cbv zeta.
  destruct (send _ (server n)) as [o w]. simpl.
  split; [|split]; [intros -> | intros e -> | intros e ->]; reflexivity.
Qed.

(** X3.  Every call of the transport sends one request and no more,
    whatever comes back: [get], [put], [post] and [delete] send their verb
    to the base URL followed by the path, with the body they were given
    ([get] and [delete] with none), and [head] sends a HEAD without a
    body. *)
Theorem one_request_per_call (path : string) (body : option value) (n : net world) :
  let url := HttpClient.base_url self +:+ path in
  let t := HttpClient.timeout self in
  sent (HttpClient.get send self path n).2 = sent n ++ [Request "GET" url None t]
  /\ sent (HttpClient.put send self path body n).2 = sent n ++ [Request "PUT" url body t]
  /\ sent (HttpClient.post send self path body n).2 = sent n ++ [Request "POST" url body t]
  /\ sent (HttpClient.delete send self path n).2 = sent n ++ [Request "DELETE" url None t]
  /\ sent (HttpClient.head send self path n).2 = sent n ++ [Request "HEAD" url None t].
Proof.
  cbv zeta. unfold HttpClient.get, HttpClient.put, HttpClient.post, HttpClient.delete.
  rewrite !_request_sent. repeat split.
  - unfold mbind, M_bind.
    pose proof (_request_sent send self "DELETE" path None n) as Hsent. cbv zeta in Hsent.
    destruct (HttpClient._request send self "DELETE" path None n) as [[r|e] n'];
      simpl in *; by subst.
  - unfold HttpClient.head, HttpClient.session_request, mbind, M_bind.
    destruct (send _ (server n)) as [o w]. by destruct o.
Qed.

End Transport_more.

(** X1 on an account that the server returns. *)
Lemma request_returns_only_2xx_witness :
  exists response,
    (always (Responded (Response.Make 200 (Some "OK") {["x-request-guid" := "r-1"]} "{...}"
        (Some (VDict (<["GUID" := VStr "a-1"]> ∅)))))
       (Request "GET" (HttpClient.base_url localhost +:+ "/v1/accounts/a-1") None
          (HttpClient.timeout localhost)) (server (fresh tt))).1 = Responded response
    /\ 200 <= Response.status_code response < 300
    /\ 200 = Response.status_code response
    /\ Some "r-1" = Response.headers response !! "x-request-guid"
    /\ body_of response = Some (VDict (<["GUID" := VStr "a-1"]> ∅)).
Proof.
  exact (request_returns_only_2xx
    (always (Responded (Response.Make 200 (Some "OK") {["x-request-guid" := "r-1"]} "{...}"
       (Some (VDict (<["GUID" := VStr "a-1"]> ∅))))))
    localhost "GET" "/v1/accounts/a-1" None (fresh tt)
    (ApiResponse.Make (VDict (<["GUID" := VStr "a-1"]> ∅)) 200 (Some "r-1")) eq_refl).
Defined.

(** ** Construction of the client *)

Lemma app_empty (s : string) : "" +:+ s = s.
Proof. reflexivity. Qed.

Lemma app_cons (c : ascii) (s t : string) : String c s +:+ t = String c (s +:+ t).
Proof. reflexivity. Qed.

Lemma rstrip_char_slashes (s : string) :
  exists k, s = Py.rstrip_char "/" s +:+ slashes k.
Proof.
  induction s as [|c s [k IH]]; [by exists 0%nat|]. simpl.
  destruct (Py.rstrip_char "/" s) as [|a r] eqn:Hr.
  - rewrite app_empty in IH. destruct (Ascii.eqb c "/") eqn:Hc.
    + apply Ascii.eqb_eq in Hc as ->. exists (S k). rewrite app_empty. simpl. by rewrite <- IH.
    + exists k. rewrite app_cons, app_empty. by rewrite <- IH.
  - exists k. rewrite app_cons. by rewrite <- IH.
Qed.

Lemma rstrip_char_ends (x : ascii) (s : string) : ends_with x (Py.rstrip_char x s) = false.
Proof.
  induction s as [|c s IH]; [reflexivity|]. simpl.
  destruct (Py.rstrip_char x s) as [|a r]; [|exact IH].
  destruct (Ascii.eqb c x) eqn:Hc; [reflexivity | exact Hc].
Qed.

Lemma ends_with_app (x : ascii) (prefix : string) :
  ends_with x (prefix +:+ String x "") = true.
Proof.
  induction prefix as [|c p IH]; [apply Ascii.eqb_refl|].
  rewrite app_cons. simpl.
  destruct (p +:+ String x "") eqn:Hp; [by destruct p | exact IH].
Qed.

Lemma rstrip_char_fixed (x : ascii) (s : string) :
  ends_with x s = false -> Py.rstrip_char x s = s.
Proof.
  induction s as [|c s IH]; [reflexivity|]. simpl. destruct s as [|a r].
  - simpl. by intros ->.
  - intros H. by rewrite (IH H).
Qed.

Lemma no_trailing_slash (s : string) :
  forall prefix, Py.rstrip_char "/" s <> prefix +:+ "/".
Proof.
  intros prefix Heq. pose proof (rstrip_char_ends "/" s) as Hends.
  by rewrite Heq, ends_with_app in Hends.
Qed.

(** X4.  The transport keeps the base URL without its trailing slashes:
    what was given is the kept URL followed by slashes only, and the kept
    URL does not end in a slash, so that a path that starts with a slash
    joins it with exactly that slash. *)
Theorem base_url_without_trailing_slash (base_url api_key : string) (timeout_seconds : float) :
  let self := HttpClient.__init__ base_url api_key timeout_seconds in
  (exists k, base_url = HttpClient.base_url self +:+ slashes k)
  /\ (forall prefix, HttpClient.base_url self <> prefix +:+ "/")
  /\ HttpClient.base_url
       (HttpClient.__init__ (HttpClient.base_url self) api_key timeout_seconds)
     = HttpClient.base_url self.
Proof.
  cbv zeta. simpl. split; [apply rstrip_char_slashes|]. split; [apply no_trailing_slash|].
  apply rstrip_char_fixed, rstrip_char_ends.
Qed.

(** X5.  [NetLedgerClient] is built exactly when neither the base URL nor
    the API key is blank (empty or all whitespace); a blank base URL is
    reported first, both as [ValueError].  The client built has the base
    URL of its transport, which is the given one without its trailing
    slashes. *)
Theorem client_construction (base_url api_key : string) (timeout_seconds : float) :
  let built := NetLedgerClient.__init__ base_url api_key timeout_seconds in
  (Py.all_space base_url = true -> built = Raise (ValueError "Base URL cannot be empty"))
  /\ (Py.all_space base_url = false -> Py.all_space api_key = true ->
      built = Raise (ValueError "API key cannot be empty"))
  /\ (Py.all_space base_url = false -> Py.all_space api_key = false ->
      exists client,
        built = Return client
        /\ NetLedgerClient.base_url client
           = HttpClient.base_url (NetLedgerClient._http_client client)
        /\ HttpClient.api_key (NetLedgerClient._http_client client) = api_key
        /\ (exists k, base_url = NetLedgerClient.base_url client +:+ slashes k)
        /\ (forall prefix, NetLedgerClient.base_url client <> prefix +:+ "/")).
Proof.
  cbv zeta. unfold NetLedgerClient.__init__, Py.blank. rewrite !blank_test.
  split; [by intros ->|]. split; [by intros -> ->|]. intros -> ->.
  eexists. split; [reflexivity|]. simpl. split.
  { symmetry. apply rstrip_char_fixed, rstrip_char_ends. }
  split; [reflexivity|]. split; [apply rstrip_char_slashes | apply no_trailing_slash].
Qed.

(** X5 on the client of the examples of the SDK. *)
Lemma client_construction_witness :
  exists client,
    NetLedgerClient.__init__ "http://localhost:8080/" "your-api-key" 30%float = Return client
    /\ NetLedgerClient.base_url client
       = HttpClient.base_url (NetLedgerClient._http_client client)
    /\ HttpClient.api_key (NetLedgerClient._http_client client) = "your-api-key"
    /\ (exists k, "http://localhost:8080/" = NetLedgerClient.base_url client +:+ slashes k)
    /\ (forall prefix, NetLedgerClient.base_url client <> prefix +:+ "/").
Proof.
  exact (proj2 (proj2 (client_construction "http://localhost:8080/" "your-api-key" 30%float))
           eq_refl eq_refl).
Defined.

(** ** Decoding *)

(** X6.  An integer discriminator is decoded strictly: the codes 0, 1 and
    2 give the member with that value, every other integer is a
    [ValueError] (where an unknown name would pass for a credit), and a
    wire object with such a code fails to decode as a whole.  Encoding a
    member as its value and decoding it gives the member back. *)
Theorem integer_codes_are_strict (z : Z) :
  (0 <= z <= 2 -> exists t, Entry.decode_type (VInt z) = Return t /\ EntryType.value t = z)
  /\ (¬ (0 <= z <= 2) ->
      (exists message, Entry.decode_type (VInt z) = Raise (ValueError message))
      /\ forall bi d, d !! "Type" = Some (VInt z) ->
           exists message, Entry.from_dict bi (VDict d) = Raise (ValueError message))
  /\ (forall t, Entry.decode_type (VInt (EntryType.value t)) = Return t).
Proof.
  split; [|split].
  - intros Hz. destruct z as [|[p|[p|p|]|]|p]; try lia;
      [by exists CREDIT | by exists BALANCE | by exists DEBIT].
  - intros Hz.
    assert (Entry.decode_type (VInt z) = Raise (ValueError "value is not a valid EntryType"))
      as Hraise.
    { destruct z as [|[p|[p|p|]|]|p]; try lia; reflexivity. }
    split; [by eexists|]. intros bi d Hd. eexists.
    assert (Py.dict_get d "Type" (VInt 0) = VInt z) as Hget.
    { unfold Py.dict_get. by rewrite Hd. }
    unfold Entry.from_dict. simpl. rewrite Hget, Hraise. reflexivity.
  - by intros [].
Qed.

(** X7.  What [Entry.from_dict] does with a wire value: anything but an
    object is an [AttributeError]; on an object, a discriminator that
    does not decode is reported before an amount that does not convert;
    and an entry that is returned has the decoded type, the converted
    amount, and every other member as it is on the wire, with [""] for a
    missing guid, [False] for a missing commit flag and [None] for the
    rest. *)
Theorem entry_decoding_outcome (bi : Py.builtins) :
  (forall v, (forall d, v <> VDict d) -> Entry.from_dict bi v = Raise AttributeError)
  /\ (forall d e,
        Entry.decode_type (Py.dict_get d "Type" (VInt 0)) = Raise e ->
        Entry.from_dict bi (VDict d) = Raise e)
  /\ (forall d t e,
        Entry.decode_type (Py.dict_get d "Type" (VInt 0)) = Return t ->
        Py.to_float bi (Py.dict_get d "Amount" (VInt 0)) = Raise e ->
        Entry.from_dict bi (VDict d) = Raise e)
  /\ (forall d entry,
        Entry.from_dict bi (VDict d) = Return entry ->
        Entry.decode_type (Py.dict_get d "Type" (VInt 0)) = Return (Entry.type entry)
        /\ Py.to_float bi (Py.dict_get d "Amount" (VInt 0)) = Return (Entry.amount entry)
        /\ Entry.guid entry = default (VStr "") (d !! "GUID")
        /\ Entry.account_guid entry = default (VStr "") (d !! "AccountGUID")
        /\ Entry.description entry = default VNone (d !! "Description")
        /\ Entry.replaces entry = default VNone (d !! "Replaces")
        /\ Entry.is_committed entry = default (VBool false) (d !! "IsCommitted")
        /\ Entry.committed_by_guid entry = default VNone (d !! "CommittedByGUID")
        /\ Entry.committed_utc entry = default VNone (d !! "CommittedUtc")
        /\ Entry.created_utc entry = default VNone (d !! "CreatedUtc")).
Proof.
  split; [|split; [|split]].
  - intros v Hv. destruct v; try reflexivity. by destruct (Hv d).
  - intros d e He. unfold Entry.from_dict. simpl. by rewrite He.
  - intros d t e Ht He. unfold Entry.from_dict. simpl. rewrite Ht. simpl. by rewrite He.
  - intros d entry. unfold Entry.from_dict. simpl.
    destruct (Entry.decode_type _) as [t|e]; simpl; [|discriminate].
    destruct (Py.to_float bi _) as [a|e]; simpl; [|discriminate].
    intros [= <-]. simpl. unfold Py.dict_get.
    repeat split; by destruct (d !! _).
Qed.





(** X9.  A page whose [Objects] is a list decodes exactly when each of
    its objects does: the page then holds the decoded objects in the
    order and number of the wire ([objects] is [None], not the empty
    list, for an empty [Objects]), and the four counters are those of the
    wire, a page without [EndOfResults] counting as the last one. *)
Theorem page_decoding {A : Type} (factory : value -> Result A) (d : gmap string value)
    (l : list value) :
  d !! "Objects" = Some (VList l) ->
  (forall decoded, Forall2 (fun o a => factory o = Return a) l decoded ->
     exists page,
       EnumerationResult.from_dict (VDict d) (Some factory) = Return page
       /\ decoded_objects page = decoded
       /\ (EnumerationResult.objects page = None <-> l = [])
       /\ EnumerationResult.total_records page = default (VInt 0) (d !! "TotalRecords")
       /\ EnumerationResult.records_remaining page
          = default (VInt 0) (d !! "RecordsRemaining")
       /\ EnumerationResult.end_of_results page = default (VBool true) (d !! "EndOfResults")
       /\ EnumerationResult.continuation_token page
          = default VNone (d !! "ContinuationToken"))
  /\ (forall page,
        EnumerationResult.from_dict (VDict d) (Some factory) = Return page ->
        Forall2 (fun o a => factory o = Return a) l (decoded_objects page)).
Proof.
  intros Hobjects.
  assert (Py.dict_get d "Objects" VNone = VList l) as Hget.
  { unfold Py.dict_get. by rewrite Hobjects. }
  assert (forall key dflt, Py.dict_get d key dflt = default dflt (d !! key)) as Hdefault.
  { intros key dflt. unfold Py.dict_get. by destruct (d !! key). }
  unfold EnumerationResult.from_dict. cbn [Py.get mbind Result_bind]. rewrite Hget.
  destruct l as [|o l].
  - split.
    + intros decoded Hall. apply Forall2_nil_inv_l in Hall as ->.
      eexists. split; [reflexivity|]. rewrite !Hdefault. by repeat split.
    + intros page [= <-]. constructor.
  - cbn [Py.truthy length negb]. rewrite bool_decide_eq_false_2 by done.
    cbn [negb Py.iter mbind Result_bind]. split.
    + intros decoded Hall. apply comprehension_Forall2 in Hall. rewrite Hall.
      eexists. split; [reflexivity|]. rewrite !Hdefault. by repeat split.
    + intros page.
      destruct (Py.comprehension factory (o :: l)) as [decoded|e] eqn:Hall; [|discriminate].
      intros [= <-]. by apply comprehension_Forall2.
Qed.

(** X9 on a page of two accounts. *)
Lemma page_decoding_witness :
  exists page,
    EnumerationResult.from_dict
      (VDict (<["Objects" := VList [VDict (<["Name" := VStr "a"]> ∅);
                                     VDict (<["Name" := VStr "b"]> ∅)]]>
                (<["TotalRecords" := VInt 7]> ∅)))
      (Some Account.from_dict) = Return page
    /\ Account.name <$> decoded_objects page = [VStr "a"; VStr "b"]
    /\ EnumerationResult.total_records page = VInt 7
    /\ EnumerationResult.end_of_results page = VBool true.
Proof.
  assert ((<["Objects" := VList [VDict (<["Name" := VStr "a"]> ∅);
                                 VDict (<["Name" := VStr "b"]> ∅)]]>
             (<["TotalRecords" := VInt 7]> ∅) : gmap string value) !! "Objects"
          = Some (VList [VDict (<["Name" := VStr "a"]> ∅); VDict (<["Name" := VStr "b"]> ∅)]))
    as Hwire by (vm_compute; reflexivity).
  assert (Forall2 (fun o a => Account.from_dict o = Return a)
            [VDict (<["Name" := VStr "a"]> ∅); VDict (<["Name" := VStr "b"]> ∅)]
            [Account.Make (VStr "") (VStr "a") VNone VNone;
             Account.Make (VStr "") (VStr "b") VNone VNone]) as Hall by (repeat constructor).
  destruct (proj1 (page_decoding Account.from_dict _ _ Hwire) _ Hall)
    as (page & Hpage & Hobjects & _ & Htotal & _ & Hend & _).
  exists page. rewrite Hobjects. by repeat split.
Defined.

(** X10.  [EntryInput.to_dict] always writes the amount, and writes the
    description exactly when it is a string that is not empty; the
    dictionary determines the amount and the description written. *)
Theorem entry_input_to_dict (e : EntryInput.t) :
  EntryInput.to_dict e !! "amount" = Some (Py.of_number (EntryInput.amount e))
  /\ EntryInput.to_dict e !! "description" = VStr <$> sent_text (EntryInput.description e)
  /\ (forall e', EntryInput.to_dict e = EntryInput.to_dict e' ->
      EntryInput.amount e = EntryInput.amount e'
      /\ sent_text (EntryInput.description e) = sent_text (EntryInput.description e')).
Proof.
  assert (forall e : EntryInput.t,
    EntryInput.to_dict e !! "amount" = Some (Py.of_number (EntryInput.amount e))
    /\ EntryInput.to_dict e !! "description"
       = VStr <$> sent_text (EntryInput.description e)) as Hlookup.
  { intros [amount [[|c s]|]]; by split. }
  destruct (Hlookup e) as [Ha Hd]. split; [done|]. split; [done|].
  intros e' Heq. destruct (Hlookup e') as [Ha' Hd']. rewrite Heq in Ha, Hd.
  rewrite Ha in Ha'. rewrite Hd in Hd'. injection Ha' as Ha'. split.
  - by apply of_number_inj.
  - destruct (sent_text (EntryInput.description e)),
      (sent_text (EntryInput.description e')); simpl in Hd'; congruence.
Qed.

(** ** Operations and the answers of the server *)

Lemma blank_all_space (s : string) : Py.blank s = Py.all_space s.
Proof. apply blank_test. Qed.

Section Answers.
Context {world : Type} {datetime : Type}.
Variable send : request -> world -> outcome * world.
Variable bi : Py.builtins.
Variable self : HttpClient.t.
Variable strftime : datetime -> string.

(** A server that gives [response] to whatever it is sent. *)
Lemma request_2xx_any (method path : string) (body : option value) (n : net world)
    (response : Response.t) (data : value) :
  (forall req, (send req (server n)).1 = Responded response) ->
  200 <= Response.status_code response < 300 ->
  body_of response = Some data ->
  exists n',
    HttpClient._request send self method path body n
    = (Return (ApiResponse.Make data (Response.status_code response)
                 (Response.headers response !! "x-request-guid")), n').
Proof.
  intros Hsend H2 Hbody.
  pose proof (_request_2xx send self method path body n response data (Hsend _) H2 Hbody) as H.
  destruct (HttpClient._request send self method path body n) as [r n'].
  simpl in H. subst r. by eexists.
Qed.

Lemma request_not_2xx_any (method path : string) (body : option value) (n : net world)
    (response : Response.t) :
  (forall req, (send req (server n)).1 = Responded response) ->
  ¬ (200 <= Response.status_code response < 300) ->
  exists e n', HttpClient._request send self method path body n = (Raise e, n').
Proof.
  intros Hsend H2. rewrite _request_unfold. cbv zeta.
  specialize (Hsend (Request method (HttpClient.base_url self +:+ path) body
                       (HttpClient.timeout self))).
  destruct (send _ (server n)) as [o w]. simpl in Hsend. subst o.
  apply is_2xx_false in H2. rewrite H2. simpl.
  destruct (Response.json response) as [[]|]; by do 2 eexists.
Qed.

Ltac answered Hsend H2 Hbody :=
  unfold HttpClient.get, HttpClient.put, HttpClient.post, mbind, M_bind;
  match goal with
  | |- context [HttpClient._request send self ?m ?p ?b ?n] =>
      let n' := fresh "n'" in
      destruct (request_2xx_any m p b n _ _ Hsend H2 Hbody) as (n' & ->)
  end.

(** X11.  A blank name (empty or all whitespace) never reaches the
    network: creating an account, looking one up by name and creating an
    API key raise a validation error that names the parameter, and the
    network is left as it was. *)
Theorem blank_names_stay_local (name : string) (n : net world) :
  Py.all_space name = true ->
  (forall notes,
     AccountMethods.create send self name notes n
     = (Raise (NetLedgerValidationError "Account name cannot be empty" (Some "name")), n))
  /\ AccountMethods.get_by_name send self name n
     = (Raise (NetLedgerValidationError "Account name cannot be empty" (Some "name")), n)
  /\ (forall is_admin,
        ApiKeyMethods.create send self name is_admin n
        = (Raise (NetLedgerValidationError "API key name cannot be empty" (Some "name")), n)).
Proof.
  intros Hblank.
  unfold AccountMethods.create, AccountMethods.get_by_name, ApiKeyMethods.create.
  rewrite !blank_all_space, Hblank. by repeat split.
Qed.

(** X12.  When the server answers with a status in [200,300) and a body
    that is blank or falsy JSON ([null], [{}], [[]], [0], [""]), every
    operation that has to return one object raises [ValueError] with the
    message "No data returned from server", not an API error: the lookups
    and the creation of an account, the balance, the balance as of a
    time, the commit, the service information and the creation of an API
    key. *)
Theorem no_data_is_a_value_error (n : net world) (response : Response.t) (data : value) :
  (forall req, (send req (server n)).1 = Responded response) ->
  200 <= Response.status_code response < 300 ->
  body_of response = Some data ->
  Py.truthy data = false ->
  let no_data {A : Type} : Result A := Raise (ValueError "No data returned from server") in
  (forall guid, (AccountMethods.get send self guid n).1 = no_data)
  /\ (forall name, Py.all_space name = false ->
        (AccountMethods.get_by_name send self name n).1 = no_data
        /\ (forall notes, (AccountMethods.create send self name notes n).1 = no_data)
        /\ (forall is_admin, (ApiKeyMethods.create send self name is_admin n).1 = no_data))
  /\ (forall guid, (BalanceMethods.get send bi self guid n).1 = no_data)
  /\ (forall guid as_of,
        (BalanceMethods.get_as_of send bi self strftime guid as_of n).1 = no_data)
  /\ (forall guid entry_guids,
        (BalanceMethods.commit send bi self guid entry_guids n).1 = no_data)
  /\ (ServiceMethods.get_info send self n).1 = no_data.
Proof.
  intros Hsend H2 Hbody Hfalsy. cbv zeta.
  split; [|split; [|split; [|split; [|split]]]].
  - intros guid. unfold AccountMethods.get. answered Hsend H2 Hbody. simpl. by rewrite Hfalsy.
  - intros name Hname. split; [|split].
    + unfold AccountMethods.get_by_name. rewrite blank_all_space, Hname.
      answered Hsend H2 Hbody. simpl. by rewrite Hfalsy.
    + intros notes. unfold AccountMethods.create. rewrite blank_all_space, Hname.
      answered Hsend H2 Hbody. simpl. by rewrite Hfalsy.
    + intros is_admin. unfold ApiKeyMethods.create. rewrite blank_all_space, Hname.
      answered Hsend H2 Hbody. simpl. by rewrite Hfalsy.
  - intros guid. unfold BalanceMethods.get. answered Hsend H2 Hbody. simpl. by rewrite Hfalsy.
  - intros guid as_of. unfold BalanceMethods.get_as_of.
    answered Hsend H2 Hbody. simpl. by rewrite Hfalsy.
  - intros guid entry_guids. unfold BalanceMethods.commit.
    answered Hsend H2 Hbody. simpl. by rewrite Hfalsy.
  - unfold ServiceMethods.get_info. answered Hsend H2 Hbody. simpl. by rewrite Hfalsy.
Qed.

(** X13.  On the same answers the operations that return a collection
    return an empty one and raise nothing: the entries of an account and
    its pending entries are the empty list, so are the balances of all
    accounts, and the three enumerations return the page of the defaults
    (no records, end of results, no token, no objects). *)
Theorem no_data_is_an_empty_collection (n : net world) (response : Response.t)
    (data : value) :
  (forall req, (send req (server n)).1 = Responded response) ->
  200 <= Response.status_code response < 300 ->
  body_of response = Some data ->
  Py.truthy data = false ->
  (forall guid,
     (EntryMethods.get_all send bi self guid n).1 = Return []
     /\ (EntryMethods.get_pending send bi self guid n).1 = Return []
     /\ (EntryMethods.get_pending_credits send bi self guid n).1 = Return []
     /\ (EntryMethods.get_pending_debits send bi self guid n).1 = Return []
     /\ forall query,
          (EntryMethods.enumerate send bi self guid query n).1
          = Return (EnumerationResult.Make (VInt 0) (VInt 0) (VBool true) VNone None))
  /\ (BalanceMethods.get_all send bi self n).1 = Return []
  /\ (forall query,
        (AccountMethods.enumerate send self query n).1
        = Return (EnumerationResult.Make (VInt 0) (VInt 0) (VBool true) VNone None))
  /\ (forall query,
        (ApiKeyMethods.enumerate send self query n).1
        = Return (EnumerationResult.Make (VInt 0) (VInt 0) (VBool true) VNone None)).
Proof.
  intros Hsend H2 Hbody Hfalsy.
  split; [|split; [|split]].
  - intros guid.
    unfold EntryMethods.get_pending, EntryMethods.get_pending_credits,
      EntryMethods.get_pending_debits.
    split; [|split; [|split; [|split]]].
    + unfold EntryMethods.get_all. answered Hsend H2 Hbody. simpl. by rewrite Hfalsy.
    + unfold EntryMethods.pending. answered Hsend H2 Hbody. simpl. by rewrite Hfalsy.
    + unfold EntryMethods.pending. answered Hsend H2 Hbody. simpl. by rewrite Hfalsy.
    + unfold EntryMethods.pending. answered Hsend H2 Hbody. simpl. by rewrite Hfalsy.
    + intros query. unfold EntryMethods.enumerate. answered Hsend H2 Hbody.
      simpl. by rewrite Hfalsy.
  - unfold BalanceMethods.get_all. answered Hsend H2 Hbody. simpl. by rewrite Hfalsy.
  - intros query. unfold AccountMethods.enumerate. answered Hsend H2 Hbody.
    simpl. by rewrite Hfalsy.
  - intros query. unfold ApiKeyMethods.enumerate. answered Hsend H2 Hbody.
    simpl. by rewrite Hfalsy.
Qed.

(** X14.  A deletion never passes silently over an error: when the
    server answers with a status outside [200,300), cancelling an entry,
    deleting an account and revoking an API key all raise, whatever the
    body; and when the body is not JSON or is a JSON object, what they
    raise is an API error with the status of the answer (404 for an
    unknown entry, 409 for a committed one). *)
Theorem deletions_fail_on_error (n : net world) (response : Response.t) :
  (forall req, (send req (server n)).1 = Responded response) ->
  ¬ (200 <= Response.status_code response < 300) ->
  (forall account_guid entry_guid api_key_guid,
     (EntryMethods.cancel send self account_guid entry_guid n).1 <> Return tt
     /\ (AccountMethods.delete send self account_guid n).1 <> Return tt
     /\ (ApiKeyMethods.revoke send self api_key_guid n).1 <> Return tt)
  /\ (Response.json response = None \/ (exists d, Response.json response = Some (VDict d)) ->
      forall account_guid entry_guid api_key_guid,
        (exists message details,
           (EntryMethods.cancel send self account_guid entry_guid n).1
           = Raise (NetLedgerApiError (Response.status_code response) message details))
        /\ (exists message details,
              (AccountMethods.delete send self account_guid n).1
              = Raise (NetLedgerApiError (Response.status_code response) message details))
        /\ (exists message details,
              (ApiKeyMethods.revoke send self api_key_guid n).1
              = Raise (NetLedgerApiError (Response.status_code response) message details))).
Proof.
  intros Hsend H2.
  assert (forall path, exists e, (HttpClient.delete send self path n).1 = Raise e) as Hraise.
  { intros path. unfold HttpClient.delete, mbind, M_bind.
    destruct (request_not_2xx_any "DELETE" path None n response Hsend H2) as (e & n' & ->).
    by exists e. }
  assert (Response.json response = None \/ (exists d, Response.json response = Some (VDict d)) ->
          forall path, exists message details,
            (HttpClient.delete send self path n).1
            = Raise (NetLedgerApiError (Response.status_code response) message details))
    as Herror.
  { intros Hbody path. unfold HttpClient.delete, mbind, M_bind.
    destruct (_request_error send self "DELETE" path None n response (Hsend _) H2 Hbody)
      as (m & d & Herr).
    destruct (HttpClient._request send self "DELETE" path None n) as [r n'].
    simpl in Herr. subst r. by exists m, d. }
  unfold EntryMethods.cancel, AccountMethods.delete, ApiKeyMethods.revoke. split.
  - intros account_guid entry_guid api_key_guid.
    split; [|split]; match goal with |- (HttpClient.delete _ _ ?p _).1 <> _ =>
      destruct (Hraise p) as [e ->]; discriminate end.
  - intros Hbody account_guid entry_guid api_key_guid. split; [|split]; by apply Herror.
Qed.

(** X15.  Of the answers in [200,300), only a 200 verifies a chain: on a
    readable answer [verify] returns [True] for the status 200 and
    [False] for every other status in that range, such as 204. *)
Theorem verify_only_200_is_valid (account_guid : string) (n : net world)
    (response : Response.t) :
  (forall req, (send req (server n)).1 = Responded response) ->
  200 <= Response.status_code response < 300 ->
  is_Some (body_of response) ->
  (BalanceMethods.verify send self account_guid n).1
  = Return (bool_decide (Response.status_code response = 200)).
Proof.
  intros Hsend H2 [data Hbody]. unfold BalanceMethods.verify, try_except.
  answered Hsend H2 Hbody. simpl.
  destruct (Z.eqb_spec (Response.status_code response) 200) as [->|Hne];
    [done | by rewrite bool_decide_eq_false_2].
Qed.

(** X16.  [get_all] and [enumerate] read an envelope alike: on an answer
    whose body is an object with no [Objects] or with a list of them,
    [get_all] returns the entries of the page that [enumerate] returns,
    and fails as [enumerate] does when an object does not decode. *)
Theorem get_all_is_the_page_of_enumerate (account_guid : string)
    (query : option EntryEnumerationQuery.t) (n : net world) (response : Response.t)
    (d : gmap string value) :
  (forall req, (send req (server n)).1 = Responded response) ->
  200 <= Response.status_code response < 300 ->
  body_of response = Some (VDict d) ->
  d !! "Objects" = None \/ (exists l, d !! "Objects" = Some (VList l)) ->
  (EntryMethods.get_all send bi self account_guid n).1
  = (page ← (EntryMethods.enumerate send bi self account_guid query n).1;
     Return (page_entries page)).
Proof.
  intros Hsend H2 Hbody Hobjects.
  assert ((EntryMethods.get_all send bi self account_guid n).1
          = if Py.truthy (VDict d) then
              objects ← Py.get (VDict d) "Objects" (VList []);
              items ← Py.iter objects;
              Py.comprehension (Entry.from_dict bi) items
            else Return []) as ->.
  { unfold EntryMethods.get_all. answered Hsend H2 Hbody. cbn [ApiResponse.data].
    destruct (Py.truthy (VDict d)); [|reflexivity]. cbn [negb].
    unfold mbind, M_bind, lift.
    destruct (Py.get (VDict d) "Objects" (VList [])) as [objects|e]; [|reflexivity].
    cbn [Result_bind]. by destruct (Py.iter objects). }
  assert ((EntryMethods.enumerate send bi self account_guid query n).1
          = if Py.truthy (VDict d) then
              EnumerationResult.from_dict (VDict d) (Some (Entry.from_dict bi))
            else Return EnumerationResult.default) as ->.
  { unfold EntryMethods.enumerate. answered Hsend H2 Hbody. cbn [ApiResponse.data].
    by destruct (Py.truthy (VDict d)). }
  destruct (Py.truthy (VDict d)); [|reflexivity].
  unfold EnumerationResult.from_dict. cbn [Py.get mbind Result_bind].
  unfold Py.dict_get. destruct Hobjects as [->|[l ->]]; [reflexivity|].
  destruct l as [|o l]; [reflexivity|].
  cbn [Py.truthy length negb]. rewrite bool_decide_eq_false_2 by done.
  cbn [negb Py.iter mbind Result_bind].
  by destruct (Py.comprehension (Entry.from_dict bi) (o :: l)).
Qed.

(** X17.  The pending entries come back as the server lists them: on an
    answer whose body is a JSON list, [get_pending], [get_pending_credits]
    and [get_pending_debits] decode one entry for each object, in order,
    and fail as a whole if one of them does not decode. *)
Theorem pending_entries_in_order (account_guid : string) (n : net world)
    (response : Response.t) (l : list value) :
  (forall req, (send req (server n)).1 = Responded response) ->
  200 <= Response.status_code response < 300 ->
  body_of response = Some (VList l) ->
  let decoded := Py.comprehension (Entry.from_dict bi) l in
  (EntryMethods.get_pending send bi self account_guid n).1 = decoded
  /\ (EntryMethods.get_pending_credits send bi self account_guid n).1 = decoded
  /\ (EntryMethods.get_pending_debits send bi self account_guid n).1 = decoded
  /\ (forall entries, decoded = Return entries <->
        Forall2 (fun o e => Entry.from_dict bi o = Return e) l entries).
Proof.
  intros Hsend H2 Hbody. cbv zeta.
  assert (forall suffix,
    (EntryMethods.pending send bi self suffix account_guid n).1
    = Py.comprehension (Entry.from_dict bi) l) as Hpending.
  { intros suffix. unfold EntryMethods.pending. answered Hsend H2 Hbody.
    cbn [ApiResponse.data]. destruct l as [|o l]; [reflexivity|].
    cbn [Py.truthy length negb]. rewrite bool_decide_eq_false_2 by done.
    cbn [negb lift mbind M_bind Py.iter fst]. reflexivity. }
  unfold EntryMethods.get_pending, EntryMethods.get_pending_credits,
    EntryMethods.get_pending_debits. rewrite !Hpending.
  repeat split; by apply comprehension_Forall2.
Qed.

(** X18.  [get_as_of] reads the member [balance] of the answer and
    nothing else: on an answer whose body is an object that is not empty,
    the result is [float] of that member, and [float(0)] when the object
    has no such member. *)
Theorem balance_as_of_reads_balance (account_guid : string) (as_of_utc : datetime)
    (n : net world) (response : Response.t) (d : gmap string value) :
  (forall req, (send req (server n)).1 = Responded response) ->
  200 <= Response.status_code response < 300 ->
  body_of response = Some (VDict d) ->
  d <> ∅ ->
  (BalanceMethods.get_as_of send bi self strftime account_guid as_of_utc n).1
  = Py.to_float bi (default (VInt 0) (d !! "balance")).
Proof.
  intros Hsend H2 Hbody Hne. unfold BalanceMethods.get_as_of.
  answered Hsend H2 Hbody. cbn [ApiResponse.data Py.truthy].
  rewrite bool_decide_eq_false_2 by (by rewrite map_size_empty_iff).
  cbn [negb lift Py.get fst]. unfold Py.dict_get. by destruct (d !! "balance").
Qed.

End Answers.

(** X11 on a name of three spaces. *)
Lemma blank_names_stay_local_witness :
  AccountMethods.get_by_name (always RaisedTimeout) localhost "   " (fresh tt)
  = (Raise (NetLedgerValidationError "Account name cannot be empty" (Some "name")), fresh tt).
Proof.
  exact (proj1 (proj2 (blank_names_stay_local (always RaisedTimeout) localhost "   "
                         (fresh tt) eq_refl))).
Defined.

(** X12 on a 200 without a body. *)
Lemma no_data_is_a_value_error_witness :
  (AccountMethods.get (always (Responded (Response.Make 200 (Some "OK") ∅ "" None)))
     localhost "a-1" (fresh tt)).1
  = Raise (ValueError "No data returned from server").
Proof.
  assert (200 <= 200 < 300) as H2 by lia.
  exact (proj1 (no_data_is_a_value_error
    (always (Responded (Response.Make 200 (Some "OK") ∅ "" None))) refusing localhost
    (fun _ : unit => "2025-01-01T00:00:00Z") (fresh tt) _ VNone
    (fun _ => eq_refl) H2 eq_refl eq_refl) "a-1").
Defined.

(** X13 on a 200 whose body is the empty object. *)
Lemma no_data_is_an_empty_collection_witness :
  (BalanceMethods.get_all
     (always (Responded (Response.Make 200 (Some "OK") ∅ "{}" (Some (VDict ∅)))))
     refusing localhost (fresh tt)).1 = Return [].
Proof.
  assert (200 <= 200 < 300) as H2 by lia.
  assert (Py.truthy (VDict ∅) = false) as Hfalsy by (vm_compute; reflexivity).
  exact (proj1 (proj2 (no_data_is_an_empty_collection
    (always (Responded (Response.Make 200 (Some "OK") ∅ "{}" (Some (VDict ∅)))))
    refusing localhost (fresh tt) _ (VDict ∅) (fun _ => eq_refl) H2 eq_refl Hfalsy))).
Defined.

(** X14 on the cancellation of an entry that is already committed. *)
Lemma deletions_fail_on_error_witness :
  exists message details,
    (EntryMethods.cancel
       (always (Responded (Response.Make 409 (Some "Conflict") ∅ "{...}"
          (Some (VDict (<["message" := VStr "Entry is committed"]> ∅))))))
       localhost "acct" "e-1" (fresh tt)).1
    = Raise (NetLedgerApiError 409 message details).
Proof.
  assert (¬ (200 <= 409 < 300)) as H2 by lia.
  exact (proj1 (proj2 (deletions_fail_on_error
    (always (Responded (Response.Make 409 (Some "Conflict") ∅ "{...}"
       (Some (VDict (<["message" := VStr "Entry is committed"]> ∅))))))
    localhost (fresh tt) _ (fun _ => eq_refl) H2)
    (or_intror (ex_intro _ _ eq_refl)) "acct" "e-1" "k-1")).
Defined.

(** X15 on a 204. *)
Lemma verify_only_200_is_valid_witness :
  (BalanceMethods.verify
     (always (Responded (Response.Make 204 (Some "No Content") ∅ "" None)))
     localhost "acct" (fresh tt)).1 = Return false.
Proof.
  assert (200 <= 204 < 300) as H2 by lia.
  exact (verify_only_200_is_valid
    (always (Responded (Response.Make 204 (Some "No Content") ∅ "" None)))
    localhost "acct" (fresh tt) _ (fun _ => eq_refl) H2 (ex_intro _ VNone eq_refl)).
Defined.

(** X16 and X17 on one credit of 12.5. *)
Lemma get_all_is_the_page_of_enumerate_witness :
  let send := always (Responded (Response.Make 200 (Some "OK") ∅ "{...}"
    (Some (VDict (<["Objects" := VList [scenario_record 12.5]]> ∅))))) in
  (EntryMethods.get_all send refusing localhost "acct" (fresh tt)).1
  = (page ← (EntryMethods.enumerate send refusing localhost "acct" None (fresh tt)).1;
     Return (page_entries page)).
Proof.
  assert (200 <= 200 < 300) as H2 by lia.
  assert ((<["Objects" := VList [scenario_record 12.5]]> ∅ : gmap string value) !! "Objects"
          = Some (VList [scenario_record 12.5])) as Hobjects by (vm_compute; reflexivity).
  exact (get_all_is_the_page_of_enumerate
    (always (Responded (Response.Make 200 (Some "OK") ∅ "{...}"
       (Some (VDict (<["Objects" := VList [scenario_record 12.5]]> ∅))))))
    refusing localhost "acct" None (fresh tt) _ _ (fun _ => eq_refl) H2 eq_refl
    (or_intror (ex_intro _ _ Hobjects))).
Defined.

Lemma pending_entries_in_order_witness :
  (EntryMethods.get_pending
     (always (Responded (Response.Make 200 (Some "OK") ∅ "[...]"
        (Some (VList [scenario_record 12.5])))))
     refusing localhost "acct" (fresh tt)).1
  = Py.comprehension (Entry.from_dict refusing) [scenario_record 12.5].
Proof.
  assert (200 <= 200 < 300) as H2 by lia.
  exact (proj1 (pending_entries_in_order
    (always (Responded (Response.Make 200 (Some "OK") ∅ "[...]"
       (Some (VList [scenario_record 12.5])))))
    refusing localhost "acct" (fresh tt) _ [scenario_record 12.5]
    (fun _ => eq_refl) H2 eq_refl)).
Defined.

(** X18 on a balance of 12.5. *)
Lemma balance_as_of_reads_balance_witness :
  (BalanceMethods.get_as_of
     (always (Responded (Response.Make 200 (Some "OK") ∅ "{...}"
        (Some (VDict (<["balance" := VFloat 12.5]> ∅))))))
     refusing localhost (fun _ : unit => "2025-01-01T00:00:00Z") "acct" tt (fresh tt)).1
  = Py.to_float refusing
      (default (VInt 0) ((<["balance" := VFloat 12.5]> ∅ : gmap string value) !! "balance")).
Proof.
  assert (200 <= 200 < 300) as H2 by lia.
  exact (balance_as_of_reads_balance
    (always (Responded (Response.Make 200 (Some "OK") ∅ "{...}"
       (Some (VDict (<["balance" := VFloat 12.5]> ∅))))))
    refusing localhost (fun _ : unit => "2025-01-01T00:00:00Z") "acct" tt (fresh tt) _ _
    (fun _ => eq_refl) H2 eq_refl (insert_non_empty _ _ _)).
Defined.

Lemma Forall2_elem_of_left {A B : Type} (P : A -> B -> Prop) (l : list A) (k : list B) (x : A) :
  Forall2 P l k -> x ∈ l -> exists y, y ∈ k /\ P x y.
Proof.
  induction 1 as [|a b l k Hab _ IH]; intros Hx; [by apply elem_of_nil in Hx|].
  apply elem_of_cons in Hx as [->|Hx].
  - exists b. split; [left | done].
  - destruct (IH Hx) as (y & Hy & HP). exists y. split; [by right | done].
Qed.

Lemma Forall2_elem_of_right {A B : Type} (P : A -> B -> Prop) (l : list A) (k : list B) (y : B) :
  Forall2 P l k -> y ∈ k -> exists x, x ∈ l /\ P x y.
Proof.
  induction 1 as [|a b l k Hab _ IH]; intros Hy; [by apply elem_of_nil in Hy|].
  apply elem_of_cons in Hy as [->|Hy].
  - exists a. split; [left | done].
  - destruct (IH Hy) as (x & Hx & HP). exists x. split; [by right | done].
Qed.

Section Requests.
Context {world : Type}.
Variable send : request -> world -> outcome * world.
Variable bi : Py.builtins.
Variable self : HttpClient.t.

(** X19.  [get_all] of the balances returns one balance for each account
    of the map that the server sends: as many balances as the map has
    keys, each decoded from the value of a key, and every value decoded
    (so that a single value that does not decode fails the call). *)
Theorem one_balance_per_account (n : net world) (response : Response.t)
    (d : gmap string value) (balances : list Balance.t) :
  (forall req, (send req (server n)).1 = Responded response) ->
  200 <= Response.status_code response < 300 ->
  body_of response = Some (VDict d) ->
  (BalanceMethods.get_all send bi self n).1 = Return balances ->
  length balances = size d
  /\ (forall guid wire, d !! guid = Some wire ->
      exists b, b ∈ balances /\ Balance.from_dict bi wire = Return b)
  /\ (forall b, b ∈ balances ->
      exists guid wire, d !! guid = Some wire /\ Balance.from_dict bi wire = Return b).
Proof.
  intros Hsend H2 Hbody.
  assert ((BalanceMethods.get_all send bi self n).1
          = Py.comprehension (Balance.from_dict bi) (snd <$> map_to_list d)) as ->.
  { unfold BalanceMethods.get_all, HttpClient.get, mbind, M_bind.
    pose proof (_request_2xx send self "GET" "/v1/balances" None n response (VDict d)
                  (Hsend _) H2 Hbody) as Hreq.
    destruct (HttpClient._request send self "GET" "/v1/balances" None n) as [r n'].
    simpl in Hreq. subst r. cbn [ApiResponse.data Py.truthy].
    destruct (decide (size d = 0%nat)) as [Hsize|Hsize].
    - rewrite bool_decide_eq_true_2 by done. apply map_size_empty_iff in Hsize as ->.
      by rewrite map_to_list_empty.
    - rewrite bool_decide_eq_false_2 by done. reflexivity. }
  intros Hall. apply comprehension_Forall2 in Hall. split; [|split].
  - apply Forall2_length in Hall. by rewrite <- Hall, length_fmap, length_map_to_list.
  - intros guid wire Hlookup. apply elem_of_map_to_list in Hlookup.
    apply (list_elem_of_fmap_2 snd) in Hlookup.
    by apply (Forall2_elem_of_left _ _ _ _ Hall) in Hlookup.
  - intros b Hb. destruct (Forall2_elem_of_right _ _ _ _ Hall Hb) as (wire & Hwire & Hdec).
    apply list_elem_of_fmap in Hwire as ([guid wire'] & -> & Hin).
    apply elem_of_map_to_list in Hin. by exists guid, wire'.
Qed.

(** X20.  What the credit operations send once the amounts are positive,
    whatever the server answers then: [add_credit] one PUT to the credits
    of the account, with the amount as [Amount] and the description as
    [Notes] only if it is a string that is not empty; [add_credits] one
    PUT to the same address, with one object for each entry under
    [Entries], in order, each with its amount as [Amount] and with
    [Notes] always there, [None] for an entry without a description. *)
Theorem credit_requests (account_guid : string) (n : net world) :
  let url := HttpClient.base_url self +:+ "/v1/accounts/" +:+ account_guid +:+ "/credits" in
  (forall amount description, ¬ nonpositive amount ->
     exists body,
       sent (EntryMethods.add_credit send self account_guid amount description n).2
       = sent n ++ [Request "PUT" url (Some (VDict body)) (HttpClient.timeout self)]
       /\ body !! "Amount" = Some (Py.of_number amount)
       /\ body !! "Notes" = VStr <$> sent_text description)
  /\ (forall entries,
        entries <> [] -> Forall (fun e => ¬ nonpositive (EntryInput.amount e)) entries ->
        exists payloads,
          sent (EntryMethods.add_credits send self account_guid entries n).2
          = sent n ++ [Request "PUT" url (Some (VDict (<["Entries" := VList payloads]> ∅)))
                         (HttpClient.timeout self)]
          /\ Forall2 (fun e payload =>
                        exists members, payload = VDict members
                          /\ members !! "Amount" = Some (Py.of_number (EntryInput.amount e))
                          /\ members !! "Notes"
                             = Some (Py.of_optional_str (EntryInput.description e)))
               entries payloads).
Proof.
  cbv zeta. split.
  - intros amount description Hpos.
    assert (Py.le0 amount = false) as Hle.
    { destruct (Py.le0 amount) eqn:E; [|done]. by apply le0_nonpositive in E. }
    unfold EntryMethods.add_credit, EntryMethods.add_one. rewrite Hle.
    eexists. split; [|split].
    + unfold mbind, M_bind, HttpClient.put.
      match goal with |- context [HttpClient._request send self ?m ?p ?b n] =>
        pose proof (_request_sent send self m p b n) as Hsent end.
      cbv zeta in Hsent.
      destruct (HttpClient._request send self "PUT" _ _ n) as [[r|e] n'];
        simpl in Hsent; subst n'; [|reflexivity].
      unfold raise, lift. destruct (negb _); [reflexivity|].
      destruct (Py.get _ _ _) as [guids|e]; [|reflexivity]. cbn [fst snd].
      by destruct (negb _).
    + by destruct description as [[|c s]|].
    + by destruct description as [[|c s]|].
  - intros entries Hne Hall.
    assert (EntryMethods.check_amounts entries = Return tt) as Hcheck.
    { clear Hne. induction Hall as [|e l He _ IH]; simpl; [reflexivity|].
      destruct (Py.le0 (EntryInput.amount e)) eqn:E; [by apply le0_nonpositive in E | exact IH]. }
    unfold EntryMethods.add_credits, EntryMethods.add_many.
    rewrite bool_decide_eq_false_2 by (by destruct entries).
    unfold mbind, M_bind, lift at 1. rewrite Hcheck.
    exists (EntryMethods.entry_payload <$> entries). split.
    + unfold HttpClient.put.
      match goal with |- context [HttpClient._request send self ?m ?p ?b n] =>
        pose proof (_request_sent send self m p b n) as Hsent end.
      cbv zeta in Hsent.
      destruct (HttpClient._request send self "PUT" _ _ n) as [[r|e] n'];
        simpl in Hsent; subst n'; [|reflexivity].
      unfold lift. by destruct (negb _).
    + apply Forall2_fmap_r, Forall_Forall2_diag, Forall_forall. intros e _.
      eexists. split; [reflexivity|]. by split.
Qed.

End Requests.

(** X19 on the balance of one account. *)
Lemma one_balance_per_account_witness :
  let d : gmap string value :=
    <["a-1" := VDict (<["AccountGUID" := VStr "a-1"]>
                        (<["CommittedBalance" := VFloat 10]>
                           (<["PendingBalance" := VFloat 12.5]> ∅)))]> ∅ in
  let balances := [Balance.Make (VStr "a-1") 10 12.5 None None] in
  length balances = size d
  /\ (forall guid wire, d !! guid = Some wire ->
      exists b, b ∈ balances /\ Balance.from_dict refusing wire = Return b)
  /\ (forall b, b ∈ balances ->
      exists guid wire, d !! guid = Some wire /\ Balance.from_dict refusing wire = Return b).
Proof.
  assert (200 <= 200 < 300) as H2 by lia.
  assert ((BalanceMethods.get_all
     (always (Responded (Response.Make 200 (Some "OK") ∅ "{...}"
        (Some (VDict (<["a-1" := VDict (<["AccountGUID" := VStr "a-1"]>
                         (<["CommittedBalance" := VFloat 10]>
                            (<["PendingBalance" := VFloat 12.5]> ∅)))]> ∅))))))
     refusing localhost (fresh tt)).1
     = Return [Balance.Make (VStr "a-1") 10 12.5 None None]) as Hrun
    by (vm_compute; reflexivity).
  exact (one_balance_per_account
    (always (Responded (Response.Make 200 (Some "OK") ∅ "{...}"
       (Some (VDict (<["a-1" := VDict (<["AccountGUID" := VStr "a-1"]>
                        (<["CommittedBalance" := VFloat 10]>
                           (<["PendingBalance" := VFloat 12.5]> ∅)))]> ∅))))))
    refusing localhost (fresh tt)
    (Response.Make 200 (Some "OK") ∅ "{...}"
       (Some (VDict (<["a-1" := VDict (<["AccountGUID" := VStr "a-1"]>
                        (<["CommittedBalance" := VFloat 10]>
                           (<["PendingBalance" := VFloat 12.5]> ∅)))]> ∅))))
    (<["a-1" := VDict (<["AccountGUID" := VStr "a-1"]>
                        (<["CommittedBalance" := VFloat 10]>
                           (<["PendingBalance" := VFloat 12.5]> ∅)))]> ∅)
    [Balance.Make (VStr "a-1") 10 12.5 None None]
    (fun _ => eq_refl) H2 eq_refl Hrun).
Defined.

(** X20 on a credit with a description. *)
Lemma credit_requests_witness :
  exists body,
    sent (EntryMethods.add_credit (always RaisedTimeout) localhost "acct" (Py.NFloat 100)
            (Some "Initial deposit") (fresh tt)).2
    = [Request "PUT" "http://localhost:8080/v1/accounts/acct/credits" (Some (VDict body))
         30%float]
    /\ body !! "Amount" = Some (VFloat 100)
    /\ body !! "Notes" = Some (VStr "Initial deposit").
Proof.
  exact (proj1 (credit_requests (always RaisedTimeout) localhost "acct" (fresh tt))
           (Py.NFloat 100) (Some "Initial deposit") ltac:(discriminate)).
Defined.

(** ** Names in paths *)





Lemma unquote_first_quote_char (c : ascii) (rest : string) :
  unquote_first (Py.quote_char c +:+ rest) = Some (c, rest).
Proof. destruct c as [[] [] [] [] [] [] [] []]; reflexivity. Qed.

Lemma quote_inj (a b : string) : Py.quote a = Py.quote b -> a = b.
Proof.
  revert b. induction a as [|c a IH]; intros [|c' b]; simpl.
  - done.
  - intros H. apply (f_equal unquote_first) in H.
    rewrite unquote_first_quote_char in H. discriminate.
  - intros H. apply (f_equal unquote_first) in H.
    rewrite unquote_first_quote_char in H. discriminate.
  - intros H. apply (f_equal unquote_first) in H.
    rewrite !unquote_first_quote_char in H. injection H as -> H. by rewrite (IH b H).
Qed.

Section Names.
Context {world : Type}.
Variable send : request -> world -> outcome * world.
Variable self : HttpClient.t.

(** The one request of [get_by_name] for a name that is not blank. *)
Lemma get_by_name_sent (name : string) (n : net world) :
  Py.all_space name = false ->
  sent (AccountMethods.get_by_name send self name n).2
  = sent n ++ [Request "GET"
                 (HttpClient.base_url self +:+ "/v1/accounts/byname/" +:+ Py.quote name)
                 None (HttpClient.timeout self)].
Proof.
  intros Hname. unfold AccountMethods.get_by_name. rewrite blank_all_space, Hname.
  unfold mbind, M_bind, HttpClient.get.
  pose proof (_request_sent send self "GET" ("/v1/accounts/byname/" +:+ Py.quote name)
                None n) as Hsent.
  cbv zeta in Hsent.
  destruct (HttpClient._request send self "GET" _ None n) as [[r|e] n'];
    simpl in Hsent; subst n'; [|reflexivity].
  unfold raise, lift. by destruct (negb _).
Qed.


(** X22.  Escaping loses nothing: two names with the same escaped form
    are the same name, so lookups by two different names send different
    requests. *)
Theorem names_are_told_apart (a b : string) (n : net world) :
  (Py.quote a = Py.quote b -> a = b)
  /\ (Py.all_space a = false -> Py.all_space b = false -> a <> b ->
      sent (AccountMethods.get_by_name send self a n).2
      <> sent (AccountMethods.get_by_name send self b n).2).
Proof.
  split; [apply quote_inj|]. intros Ha Hb Hne Heq.
  rewrite !get_by_name_sent in Heq by done.
  apply app_inv_head in Heq. injection Heq as Heq.
  apply String.app_inj in Heq. apply String.app_inj in Heq. by apply quote_inj in Heq.
Qed.

End Names.


Example quote_example :
  Py.quote "rent/2025 q1" = "rent%2F2025%20q1"
  /\ Py.quote (String (ascii_of_nat 233) "") = "%C3%A9".
Proof. split; reflexivity. Qed.

(** X22 on two names that differ in their case. *)
Lemma names_are_told_apart_witness :
  sent (AccountMethods.get_by_name (always RaisedTimeout) localhost "Rent" (fresh tt)).2
  <> sent (AccountMethods.get_by_name (always RaisedTimeout) localhost "rent" (fresh tt)).2.
Proof.
  exact (proj2 (names_are_told_apart (always RaisedTimeout) localhost "Rent" "rent" (fresh tt))
           eq_refl eq_refl ltac:(discriminate)).
Defined.

(** ** Summaries and creation requests *)

(** X23.  [PendingTransactionSummary.from_dict] decodes the entries of a
    summary in order and takes [Count] and [Total] as the wire has them:
    the count is not compared with the number of entries.  A summary
    whose [Entries] is the empty list has [None] for its entries. *)
Theorem summary_decoding (bi : Py.builtins) (d : gmap string value) (l : list value)
    (entries : list Entry.t) (total : float) :
  d !! "Entries" = Some (VList l) ->
  Forall2 (fun o e => Entry.from_dict bi o = Return e) l entries ->
  Py.to_float bi (default (VInt 0) (d !! "Total")) = Return total ->
  PendingTransactionSummary.from_dict bi (VDict d)
  = Return (PendingTransactionSummary.Make (default (VInt 0) (d !! "Count")) total
              (match l with [] => None | _ => Some entries end)).
Proof.
  intros Hentries Hall Htotal.
  assert (forall key dflt, Py.dict_get d key dflt = default dflt (d !! key)) as Hdefault.
  { intros key dflt. unfold Py.dict_get. by destruct (d !! key). }
  assert (Py.dict_get d "Entries" VNone = VList l) as Hget.
  { unfold Py.dict_get. by rewrite Hentries. }
  unfold PendingTransactionSummary.from_dict. cbn [Py.get mbind Result_bind].
  rewrite Hget, !Hdefault.
  destruct l as [|o l].
  - change (Py.truthy (VList [])) with false. cbn [mbind Result_bind]. by rewrite Htotal.
  - change (Py.truthy (VList (o :: l))) with true. cbn [Py.iter mbind Result_bind].
    apply comprehension_Forall2 in Hall. rewrite Hall. cbn [mbind Result_bind].
    by rewrite Htotal.
Qed.

(** X23 on a summary that counts five entries and lists one. *)
Lemma summary_decoding_witness :
  PendingTransactionSummary.from_dict refusing
    (VDict (<["Entries" := VList [scenario_record 12.5]]>
              (<["Count" := VInt 5]> (<["Total" := VFloat 12.5]> ∅))))
  = Return (PendingTransactionSummary.Make (VInt 5) 12.5 (Some [scenario_entry 12.5])).
Proof.
  assert ((<["Entries" := VList [scenario_record 12.5]]>
             (<["Count" := VInt 5]> (<["Total" := VFloat 12.5]> ∅)) : gmap string value)
          !! "Entries" = Some (VList [scenario_record 12.5])) as Hwire
    by (vm_compute; reflexivity).
  assert (Forall2 (fun o e => Entry.from_dict refusing o = Return e)
            [scenario_record 12.5] [scenario_entry 12.5]) as Hall
    by (repeat constructor).
  exact (summary_decoding refusing _ _ _ 12.5%float Hwire Hall eq_refl).
Defined.

Section Creation.
Context {world : Type}.
Variable send : request -> world -> outcome * world.
Variable self : HttpClient.t.

(** X24.  What the creations send for a name that is not blank, whatever
    the server answers then: [create] of an account one PUT to
    [/v1/accounts] with the name as it was given (leading and trailing
    spaces included) and the notes only if they are a string that is not
    empty; [create] of an API key one PUT to [/v1/apikeys] with the name
    and the admin flag. *)
Theorem creation_requests (name : string) (n : net world) :
  Py.all_space name = false ->
  (forall notes, exists body,
     sent (AccountMethods.create send self name notes n).2
     = sent n ++ [Request "PUT" (HttpClient.base_url self +:+ "/v1/accounts")
                    (Some (VDict body)) (HttpClient.timeout self)]
     /\ body !! "name" = Some (VStr name)
     /\ body !! "notes" = VStr <$> sent_text notes)
  /\ (forall is_admin, exists body,
        sent (ApiKeyMethods.create send self name is_admin n).2
        = sent n ++ [Request "PUT" (HttpClient.base_url self +:+ "/v1/apikeys")
                       (Some (VDict body)) (HttpClient.timeout self)]
        /\ body !! "name" = Some (VStr name)
        /\ body !! "isAdmin" = Some (VBool is_admin)).
Proof.
  intros Hname. split.
  - intros notes. unfold AccountMethods.create. rewrite blank_all_space, Hname.
    eexists. split; [|split].
    + unfold mbind, M_bind, HttpClient.put.
      match goal with |- context [HttpClient._request send self ?m ?p ?b n] =>
        pose proof (_request_sent send self m p b n) as Hsent end.
      cbv zeta in Hsent.
      destruct (HttpClient._request send self "PUT" _ _ n) as [[r|e] n'];
        simpl in Hsent; subst n'; [|reflexivity].
      unfold raise, lift. by destruct (negb _).
    + by destruct notes as [[|c s]|].
    + by destruct notes as [[|c s]|].
  - intros is_admin. unfold ApiKeyMethods.create. rewrite blank_all_space, Hname.
    eexists. split; [|split].
    + unfold mbind, M_bind, HttpClient.put.
      match goal with |- context [HttpClient._request send self ?m ?p ?b n] =>
        pose proof (_request_sent send self m p b n) as Hsent end.
      cbv zeta in Hsent.
      destruct (HttpClient._request send self "PUT" _ _ n) as [[r|e] n'];
        simpl in Hsent; subst n'; [|reflexivity].
      unfold raise, lift. by destruct (negb _).
    + reflexivity.
    + reflexivity.
Qed.

End Creation.

(** X24 on a name with a trailing space. *)
Lemma creation_requests_witness :
  exists body,
    sent (AccountMethods.create (always RaisedTimeout) localhost "Rent " None (fresh tt)).2
    = [Request "PUT" ("http://localhost:8080" +:+ "/v1/accounts") (Some (VDict body)) 30%float]
    /\ body !! "name" = Some (VStr "Rent ")
    /\ body !! "notes" = None.
Proof.
  exact (proj1 (creation_requests (always RaisedTimeout) localhost "Rent " (fresh tt) eq_refl)
           None).
Defined.

(** The paths of the account enumeration, for the default query and for a
    search term with a space in it. *)
Example enumerate_path_examples :
  AccountMethods.enumerate_path AccountEnumerationQuery.default
  = "/v1/accounts?maxResults=100&skip=0"
  /\ AccountMethods.enumerate_path (AccountEnumerationQuery.Make 10 20 (Some "rent 2025"))
     = "/v1/accounts?maxResults=10&skip=20&searchTerm=rent%202025"
  /\ AccountMethods.enumerate_path (AccountEnumerationQuery.Make 10 (-1) (Some ""))
     = "/v1/accounts?maxResults=10&skip=-1".
Proof. repeat split; reflexivity. Qed.
